(** * DLFS: the operation library of [library/base.py]

    A shallow embedding of the forward/backward operation classes
    ([Operation], [ParamOperation], [WeightMultiply], [BiasAdd], [Sigmoid],
    [Linear]) together with the part of NumPy they call.

    - An [ndarray] is a shape and a row-major buffer of binary64 floats.
    - A Python instance is its attribute dictionary, a [gmap string ndarray].
    - A method is a computation in the state-and-exception monad [Py]:
      it receives the attribute dictionary of [self] and returns either a
      value or the exception it raised, with the dictionary as it was left.
    - The overridable hooks ([_output], [_input_grad], [_param_grad]) are
      resolved on the class of [self]; the template methods [forward] and
      [backward] take them as a record, so that statements can range over
      every subclass.

    [fundamentals/library/operations.py] repeats the two base classes of
    [library/base.py] word for word (without [assert_same_shape], which it
    calls but does not define); the model follows [library/base.py].
    Assertions are taken as enabled (the interpreter is not run with -O).

    The last part models [sigmoid] and [forward_loss] of
    [intuition/neural_network_regression.py] on the same arrays. *)

From Stdlib Require Import Floats Ascii.
From stdpp Require Import gmap strings list.

Set Default Proof Using "Type".

(** ** Exceptions and results *)

(** The exceptions the library can raise.  An [AttributeError] carries the
    attribute that was not found.  An [AssertionError] carries the message
    arguments of the failed [assert]: [assert_same_shape] formats two
    shapes into its message, the bare [assert] of [BiasAdd.__init__] has
    no message. *)
Inductive exn : Type :=
  | AttributeError (name : string)
  | AssertionError (msg : option (list nat * list nat))
  | NotImplementedError
  | TypeError
  | ValueError
  | IndexError.

Inductive result (A : Type) : Type :=
  | Ok (a : A)
  | Err (e : exn).
Arguments Ok {A} a.
Arguments Err {A} e.

(** ** NumPy arrays *)

Record ndarray : Type := mk_ndarray { shape : list nat; data : list float }.

(** Number of elements of an array of the given shape. *)
Definition size_of (s : list nat) : nat := foldr Nat.mul 1 s.

(** The buffer of a well-formed array holds exactly [size_of shape] floats. *)
Definition wf (a : ndarray) : Prop := length (data a) = size_of (shape a).

Definition item (a : ndarray) (i : nat) : float := nth i (data a) 0%float.

(** Element [i, j] of a two-dimensional array with [ncols] columns. *)
Definition item2 (ncols : nat) (a : ndarray) (i j : nat) : float :=
  item a (i * ncols + j).

(** A Python float used as an operand of an array operator is a
    zero-dimensional array. *)
Definition scalar (c : float) : ndarray := {| shape := []; data := [c] |}.

(** The exponential of the C library, which [np.exp] applies to every
    element.  It is not one of the correctly rounded IEEE operations, so
    it is an interface rather than a definition. *)
Class LibM : Type := { libm_exp : float -> float }.

Module np.

(** Broadcasting works on the shapes aligned at their last dimension, so
    the helper functions take the shapes reversed. *)
Definition broadcast_dim (d1 d2 : nat) : option nat :=
  if d1 =? d2 then Some d1
  else if d1 =? 1 then Some d2
  else if d2 =? 1 then Some d1
  else None.

Fixpoint broadcast_rev (r1 r2 : list nat) : option (list nat) :=
  match r1, r2 with
  | [], r | r, [] => Some r
  | d1 :: r1', d2 :: r2' =>
      match broadcast_dim d1 d2, broadcast_rev r1' r2' with
      | Some d, Some r => Some (d :: r)
      | _, _ => None
      end
  end.

Definition broadcast_shapes (s1 s2 : list nat) : option (list nat) :=
  reverse <$> broadcast_rev (reverse s1) (reverse s2).

(** Position, in the buffer of an array whose reversed shape is [rsrc],
    of the element that lands at flat position [i] once the array is
    broadcast to the reversed shape [rdst]. *)
Fixpoint source_index (rsrc rdst : list nat) (i : nat) : nat :=
  match rsrc, rdst with
  | d :: rsrc', D :: rdst' =>
      (if d =? 1 then 0 else i mod D) + d * source_index rsrc' rdst' (i / D)
  | _, _ => 0
  end.

Definition broadcast_to (a : ndarray) (s : list nat) : list float :=
  map (fun i => item a (source_index (reverse (shape a)) (reverse s) i))
      (seq 0 (size_of s)).

(** Element-wise binary operators ([+], [-], [*], [/]) with broadcasting;
    incompatible shapes raise [ValueError]. *)
Definition ufunc2 (f : float -> float -> float) (a b : ndarray) : result ndarray :=
  match broadcast_shapes (shape a) (shape b) with
  | Some s =>
      Ok {| shape := s;
            data := zip_with f (broadcast_to a s) (broadcast_to b s) |}
  | None => Err ValueError
  end.

Definition add := ufunc2 PrimFloat.add.
Definition subtract := ufunc2 PrimFloat.sub.
Definition multiply := ufunc2 PrimFloat.mul.
Definition divide := ufunc2 PrimFloat.div.

Definition ufunc1 (f : float -> float) (a : ndarray) : ndarray :=
  {| shape := shape a; data := map f (data a) |}.

Definition exp `{LibM} : ndarray -> ndarray := ufunc1 libm_exp.

Definition ones_like (a : ndarray) : ndarray :=
  {| shape := shape a; data := replicate (size_of (shape a)) 1%float |}.

(** [np.transpose(a, (1, 0))]: the axes must be a permutation of the
    array's own, so the array has to be two-dimensional. *)
Definition transpose_1_0 (a : ndarray) : result ndarray :=
  match shape a with
  | [m; n] =>
      Ok {| shape := [n; m];
            data := flat_map (fun j => map (fun i => item a (i * n + j)) (seq 0 m))
                             (seq 0 n) |}
  | _ => Err ValueError
  end.

(** Accumulation of the products of a [dot]: from zero, in index order.
    NumPy hands the product of two float64 matrices to the BLAS of the
    build, which may fuse each multiplication with the addition and
    accumulate in blocks, so the last bits of an entry are the BLAS's.
    The statements about [dot] are therefore about its shape, its errors
    and the operands it is given, and the examples use operands on which
    every order of accumulation is exact. *)
Definition dot_sum (l : list float) : float := fold_left PrimFloat.add l 0%float.

(** Contraction of the last axis of [a] (seen as [R] rows of length [n])
    with the second-to-last axis of [b] (seen as [K] blocks of [n] rows
    of length [p]). *)
Definition contract (R n K p : nat) (a b : ndarray) : list float :=
  flat_map (fun r =>
    flat_map (fun k =>
      map (fun c =>
             dot_sum (map (fun t => PrimFloat.mul (item a (r * n + t))
                                                 (item b ((k * n + t) * p + c)))
                          (seq 0 n)))
          (seq 0 p))
      (seq 0 K))
    (seq 0 R).

(** [np.dot]: a product by a scalar when an operand is zero-dimensional,
    a sum product over the last axis of [a] and the only axis of a
    one-dimensional [b], and otherwise over the last axis of [a] and the
    second-to-last axis of [b] (the matrix product for two
    two-dimensional arrays).  Misaligned axes raise [ValueError]. *)
Definition dot (a b : ndarray) : result ndarray :=
  match shape a, shape b with
  | [], _ | _, [] => multiply a b
  | sa, [n'] =>
      let n := List.last sa 0 in
      if n =? n' then
        Ok {| shape := removelast sa;
              data := contract (size_of (removelast sa)) n 1 1 a b |}
      else Err ValueError
  | sa, sb =>
      let n := List.last sa 0 in
      let p := List.last sb 0 in
      let n' := List.last (removelast sb) 0 in
      let batch := removelast (removelast sb) in
      if n =? n' then
        Ok {| shape := removelast sa ++ batch ++ [p];
              data := contract (size_of (removelast sa)) n (size_of batch) p a b |}
      else Err ValueError
  end.

(** Reduction by [+] along the first axis, row after row; an empty axis
    gives zeros.  NumPy adds the rows in this order when a row has several
    elements, and sums a single column pairwise, so here too the statements
    are about shapes, and the example sums are exact in every order.
    On a zero-dimensional array [axis=0] is accepted and the array comes
    back as it is. *)
Definition add_reduce (l : list float) : float :=
  match l with
  | [] => 0%float
  | x :: l' => fold_left PrimFloat.add l' x
  end.

Definition sum_axis0 (a : ndarray) : result ndarray :=
  match shape a with
  | [] => Ok a
  | d :: rest =>
      let inner := size_of rest in
      Ok {| shape := rest;
            data := map (fun j => add_reduce (map (fun i => item a (i * inner + j))
                                                  (seq 0 d)))
                        (seq 0 inner) |}
  end.

(** [a.reshape(s)]: the buffer is kept, the sizes have to agree. *)
Definition reshape (a : ndarray) (s : list nat) : result ndarray :=
  if size_of s =? size_of (shape a)
  then Ok {| shape := s; data := data a |}
  else Err ValueError.

End np.

(** ** Python instances and methods *)

(** The attribute dictionary of an instance ([self.__dict__]). *)
Abbreviation obj := (gmap string ndarray).

(** A method body: it runs on the attributes of [self], may update them,
    and ends with a value or with a raised exception.  What was assigned
    before the exception stays assigned. *)
Definition Py (A : Type) : Type := obj -> result A * obj.

Definition ret {A : Type} (a : A) : Py A := fun o => (Ok a, o).

Definition raise {A : Type} (e : exn) : Py A := fun o => (Err e, o).

Definition bind {A B : Type} (m : Py A) (k : A -> Py B) : Py B :=
  fun o =>
    match m o with
    | (Ok a, o') => k a o'
    | (Err e, o') => (Err e, o')
    end.

(** A call of a function that does not touch [self]. *)
Definition call {A : Type} (r : result A) : Py A := fun o => (r, o).

(** [self.name] as an expression. *)
Definition getattr (name : string) : Py ndarray :=
  fun o =>
    match o !! name with
    | Some v => (Ok v, o)
    | None => (Err (AttributeError name), o)
    end.

(** [self.name = v]. *)
Definition setattr (name : string) (v : ndarray) : Py unit :=
  fun o => (Ok tt, <[name := v]> o).

Declare Scope py_scope.
Delimit Scope py_scope with py.
Notation "x <- m ;; k" := (bind m (fun x => k))
  (at level 100, m at next level, right associativity) : py_scope.
Notation "m ;; k" := (bind m (fun _ => k))
  (at level 100, right associativity) : py_scope.
Open Scope py_scope.

(** [ClassName(args)]: a fresh instance is initialised by [__init__]; the
    caller gets the instance only when [__init__] returns. *)
Definition construct (init : Py unit) : result obj :=
  match init ∅ with
  | (Ok _, o) => Ok o
  | (Err e, _) => Err e
  end.

(** The hooks that [forward] and [backward] call through [self]. *)
Record hooks : Type := Hooks {
  hook_output : Py ndarray;
  hook_input_grad : ndarray -> Py ndarray
}.

(** A parametric operation has a third hook. *)
Record param_hooks : Type := ParamHooks {
  op_hooks :> hooks;
  hook_param_grad : ndarray -> Py ndarray
}.

(** ** [library/base.py] *)

Definition assert_same_shape (array array_grad : ndarray) : Py unit :=
  if decide (shape array = shape array_grad) then ret tt
  else raise (AssertionError (Some (shape array_grad, shape array))).

Module Operation.

Definition __init__ : Py unit := ret tt.

Definition forward (self : hooks) (input_ : ndarray) : Py ndarray :=
  setattr "input" input_ ;;
  out <- hook_output self ;;
  setattr "output" out ;;
  getattr "output".

Definition backward (self : hooks) (output_grad : ndarray) : Py ndarray :=
  output <- getattr "output" ;;
  assert_same_shape output output_grad ;;
  ig <- hook_input_grad self output_grad ;;
  setattr "input_grad" ig ;;
  input <- getattr "input" ;;
  input_grad <- getattr "input_grad" ;;
  assert_same_shape input input_grad ;;
  getattr "input_grad".

Definition _output : Py ndarray := raise NotImplementedError.

Definition _input_grad (output_grad : ndarray) : Py ndarray :=
  raise NotImplementedError.

Definition cls : hooks := Hooks _output _input_grad.

(** What the class body binds, with the effect of calling each name with
    no argument beside [self]. *)
Definition namespace : list (string * Py unit) :=
  [ ("__init__", __init__);
    ("forward", raise TypeError);
    ("backward", raise TypeError);
    ("_output", _output ;; ret tt);
    ("_input_grad", raise TypeError) ].

End Operation.

(** The attributes every instance inherits from the builtin [object], with
    the effect of calling them with no argument beside [self]: the ones
    that take none return a value, which is dropped; the others miss an
    argument. *)
Definition object_namespace : list (string * Py unit) :=
  [ ("__init__", ret tt); ("__repr__", ret tt); ("__str__", ret tt);
    ("__hash__", ret tt); ("__dir__", ret tt); ("__sizeof__", ret tt);
    ("__reduce__", ret tt); ("__init_subclass__", ret tt);
    ("__subclasshook__", ret tt);
    ("__eq__", raise TypeError); ("__ne__", raise TypeError);
    ("__lt__", raise TypeError); ("__le__", raise TypeError);
    ("__gt__", raise TypeError); ("__ge__", raise TypeError);
    ("__getattribute__", raise TypeError); ("__setattr__", raise TypeError);
    ("__delattr__", raise TypeError); ("__format__", raise TypeError);
    ("__reduce_ex__", raise TypeError); ("__new__", raise TypeError);
    ("__doc__", raise TypeError); ("__class__", raise TypeError) ].

Fixpoint assoc {A : Type} (name : string) (l : list (string * A)) : option A :=
  match l with
  | [] => None
  | (k, v) :: l' => if decide (k = name) then Some v else assoc name l'
  end.

(** [super().name()] inside a class whose remaining method resolution
    order is [mro]: the first class that binds [name] wins, and a name
    bound nowhere is an [AttributeError]. *)
Fixpoint super_call (mro : list (list (string * Py unit))) (name : string) : Py unit :=
  match mro with
  | [] => raise (AttributeError name)
  | ns :: mro' =>
      match assoc name ns with
      | Some m => m
      | None => super_call mro' name
      end
  end.

(** Inside a class body, an identifier with two leading underscores that
    does not end in two underscores is private: the compiler rewrites it to
    [_Class__name], with the leading underscores of the class name dropped
    (and leaves it alone when nothing is left of the class name). *)
Fixpoint strip_underscores (s : string) : string :=
  match s with
  | String "_"%char s' => strip_underscores s'
  | _ => s
  end.

Definition ends_with (suffix s : string) : bool :=
  String.eqb
    (String.substring (String.length s - String.length suffix)
                      (String.length suffix) s)
    suffix.

Definition mangle (class_name name : string) : string :=
  if String.prefix "__" name && negb (ends_with "__" name)
     && negb (String.eqb (strip_underscores class_name) "")
  then String.append "_" (String.append (strip_underscores class_name) name)
  else name.

Module ParamOperation.

(** The source calls [super().__init_()], with one trailing underscore. *)
Definition __init__ (param : ndarray) : Py unit :=
  super_call [Operation.namespace; object_namespace]
             (mangle "ParamOperation" "__init_") ;;
  setattr "param" param.

Definition backward (self : param_hooks) (output_grad : ndarray) : Py ndarray :=
  output <- getattr "output" ;;
  assert_same_shape output output_grad ;;
  ig <- hook_input_grad self output_grad ;;
  setattr "input_grad" ig ;;
  pg <- hook_param_grad self output_grad ;;
  setattr "param_grad" pg ;;
  getattr "input_grad".

Definition _param_grad (output_grad : ndarray) : Py ndarray :=
  raise NotImplementedError.

Definition cls : param_hooks :=
  ParamHooks Operation.cls _param_grad.

End ParamOperation.

Module WeightMultiply.

Definition __init__ (W : ndarray) : Py unit := ParamOperation.__init__ W.

Definition _output : Py ndarray :=
  input_ <- getattr "input_" ;;
  param <- getattr "param" ;;
  call (np.dot input_ param).

Definition _input_grad (output_grad : ndarray) : Py ndarray :=
  param <- getattr "param" ;;
  pT <- call (np.transpose_1_0 param) ;;
  call (np.dot output_grad pT).

Definition _param_grad (output_grad : ndarray) : Py ndarray :=
  input_ <- getattr "input_" ;;
  iT <- call (np.transpose_1_0 input_) ;;
  call (np.dot iT output_grad).

Definition cls : param_hooks :=
  ParamHooks (Hooks _output _input_grad) _param_grad.

End WeightMultiply.

Module BiasAdd.

Definition __init__ (B : ndarray) : Py unit :=
  match shape B with
  | [] => raise IndexError
  | d :: _ =>
      if decide (d = 1) then ParamOperation.__init__ B
      else raise (AssertionError None)
  end.

Definition _output : Py ndarray :=
  input_ <- getattr "input_" ;;
  param <- getattr "param" ;;
  call (np.add input_ param).

Definition _input_grad (output_grad : ndarray) : Py ndarray :=
  input_ <- getattr "input_" ;;
  call (np.multiply (np.ones_like input_) output_grad).

Definition _param_grad (output_grad : ndarray) : Py ndarray :=
  param <- getattr "param" ;;
  param_grad <- call (np.multiply (np.ones_like param) output_grad) ;;
  summed <- call (np.sum_axis0 param_grad) ;;
  match shape param_grad with
  | _ :: d1 :: _ => call (np.reshape summed [1; d1])
  | _ => raise IndexError
  end.

Definition cls : param_hooks :=
  ParamHooks (Hooks _output _input_grad) _param_grad.

End BiasAdd.

Module Sigmoid.

Definition __init__ : Py unit := Operation.__init__.

Definition _output `{LibM} : Py ndarray :=
  input_ <- getattr "input_" ;;
  neg <- call (np.multiply (scalar (-1.0)%float) input_) ;;
  den <- call (np.add (scalar 1.0%float) (np.exp neg)) ;;
  call (np.divide (scalar 1.0%float) den).

Definition _input_grad (output_grad : ndarray) : Py ndarray :=
  output <- getattr "output" ;;
  output' <- getattr "output" ;;
  one_minus <- call (np.subtract (scalar 1.0%float) output') ;;
  sigmoid_backward <- call (np.multiply output one_minus) ;;
  call (np.multiply sigmoid_backward output_grad).

Definition cls `{LibM} : hooks := Hooks _output _input_grad.

End Sigmoid.

Module Linear.

Definition __init__ : Py unit := Operation.__init__.

Definition _output : Py ndarray := getattr "input_".

Definition _input_grad (output_grad : ndarray) : Py ndarray := ret output_grad.

Definition cls : hooks := Hooks _output _input_grad.

End Linear.

(** ** Method resolution on the four concrete classes *)

Inductive concrete : Type := WeightMultiplyOp | BiasAddOp | SigmoidOp | LinearOp.

(** None of the concrete classes overrides [forward]. *)
Definition forward_of `{LibM} (c : concrete) : ndarray -> Py ndarray :=
  match c with
  | WeightMultiplyOp => Operation.forward WeightMultiply.cls
  | BiasAddOp => Operation.forward BiasAdd.cls
  | SigmoidOp => Operation.forward Sigmoid.cls
  | LinearOp => Operation.forward Linear.cls
  end.

(** The parametric classes inherit the [backward] of [ParamOperation]. *)
Definition backward_of `{LibM} (c : concrete) : ndarray -> Py ndarray :=
  match c with
  | WeightMultiplyOp => ParamOperation.backward WeightMultiply.cls
  | BiasAddOp => ParamOperation.backward BiasAdd.cls
  | SigmoidOp => Operation.backward Sigmoid.cls
  | LinearOp => Operation.backward Linear.cls
  end.

(** The attribute dictionaries an instance of class [c] can have: empty
    when it is allocated, then whatever [forward] and [backward] leave. *)
Inductive reachable `{LibM} (c : concrete) : obj -> Prop :=
  | reach_new : reachable c ∅
  | reach_forward o x : reachable c o -> reachable c (forward_of c x o).2
  | reach_backward o g : reachable c o -> reachable c (backward_of c g o).2.

(** A method that leaves the attributes of [self] as they were. *)
Definition readonly {A : Type} (m : Py A) : Prop := forall o, (m o).2 = o.

(** ** Arrays used in the examples *)

(** [np.full(s, c)]. *)
Definition full (s : list nat) (c : float) : ndarray :=
  {| shape := s; data := replicate (size_of s) c |}.

(** A software exponential (the Taylor polynomial of degree 17), used where
    an example has to run [Sigmoid]; no statement depends on its accuracy. *)
Definition exp_series (x : float) : float :=
  (fold_left (fun '(acc, term) k =>
                let term' := PrimFloat.div (PrimFloat.mul term x) k in
                (PrimFloat.add acc term', term'))
             [1; 2; 3; 4; 5; 6; 7; 8; 9; 10; 11; 12; 13; 14; 15; 16; 17]%float
             (1, 1)%float).1.

Definition series_libm : LibM := {| libm_exp := exp_series |}.

(** Instances on which [forward] can return: the caller has assigned
    [input_] by hand ([op.input_ = ...]) before calling [forward]. *)
Definition patched_Linear : obj := {["input_" := full [2] 7%float]}.

Definition patched_WeightMultiply : obj :=
  <["param" := full [3; 4] 1%float]> {["input_" := full [2; 3] 1%float]}.

(** The same instances after [forward] was called with an array of another
    shape than the one assigned to [input_]. *)
Definition forwarded_Linear : obj :=
  <["output" := full [2] 7%float]> (<["input" := full [1] 3%float]> patched_Linear).

Definition forwarded_WeightMultiply : obj :=
  <["output" := full [2; 4] 3%float]>
    (<["input" := full [1; 1] 0%float]> patched_WeightMultiply).

(** ** [intuition/neural_network_regression.py] *)

(** The two NumPy functions of the loss whose rounding depends on the
    build of the library ([np.power] goes through the C library, [np.mean]
    sums pairwise): they are an interface. *)
Class LossKernels : Type := {
  np_power : ndarray -> float -> ndarray;
  np_mean : ndarray -> float
}.

Module regression.

(** The script indexes a [Dict[str, ndarray]], which adds [KeyError] to
    the exceptions of the array library. *)
Inductive error : Type :=
  | KeyError (key : string)
  | Raised (e : exn).

Inductive outcome (A : Type) : Type :=
  | Done (a : A)
  | Fail (e : error).
Arguments Done {A} a.
Arguments Fail {A} e.

Definition and_then {A B : Type} (r : outcome A) (k : A -> outcome B) : outcome B :=
  match r with
  | Done a => k a
  | Fail e => Fail e
  end.

(** A call into the array library. *)
Definition lib {A : Type} (r : result A) : outcome A :=
  match r with
  | Ok a => Done a
  | Err e => Fail (Raised e)
  end.

(** [weights[key]]. *)
Definition getitem (d : gmap string ndarray) (key : string) : outcome ndarray :=
  match d !! key with
  | Some v => Done v
  | None => Fail (KeyError key)
  end.

(** [np(arg)]: the name [np] is bound to the module [numpy], and a module
    is not callable. *)
Definition call_np (arg : ndarray) : outcome ndarray := Fail (Raised TypeError).

Declare Scope script_scope.
Delimit Scope script_scope with script.
Notation "x <~ m ;; k" := (and_then m (fun x => k))
  (at level 100, m at next level, right associativity) : script_scope.
Open Scope script_scope.

(** The source reads [1 / (1 + np(-1.0 * x))]. *)
Definition sigmoid (x : ndarray) : outcome ndarray :=
  neg <~ lib (np.multiply (scalar (-1.0)%float) x) ;;
  e <~ call_np neg ;;
  den <~ lib (np.add (scalar 1%float) e) ;;
  lib (np.divide (scalar 1%float) den).

Definition forward_loss `{LossKernels} (X y : ndarray) (weights : gmap string ndarray)
  : outcome (gmap string ndarray * float) :=
  W1 <~ getitem weights "W1" ;;
  M1 <~ lib (np.dot X W1) ;;
  B1 <~ getitem weights "B1" ;;
  N1 <~ lib (np.add M1 B1) ;;
  O1 <~ sigmoid N1 ;;
  W2 <~ getitem weights "W2" ;;
  M2 <~ lib (np.dot O1 W2) ;;
  B2 <~ getitem weights "B2" ;;
  P <~ lib (np.add M2 B2) ;;
  diff <~ lib (np.subtract y P) ;;
  let loss := np_mean (np_power diff 2%float) in
  let forward_info : gmap string ndarray :=
    <["y" := y]> (<["P" := P]> (<["M2" := M2]> (<["O1" := O1]>
      (<["N1" := N1]> (<["M1" := M1]> (<["X" := X]> ∅)))))) in
  Done (forward_info, loss).

End regression.

(** Kernels that accumulate in index order, used where an example has to
    name an instance of the interface; no statement depends on them. *)
Definition index_order_kernels : LossKernels :=
  {| np_power := fun a e =>
       np.ufunc1 (fun v => if PrimFloat.eqb e 2 then PrimFloat.mul v v else v) a;
     np_mean := fun a =>
       PrimFloat.div (np.dot_sum (data a))
                     (PrimFloat.of_uint63 (Uint63.of_Z (Z.of_nat (length (data a))))) |}.

(** * Properties *)

(** ** Laws of the method monad *)

Lemma bind_ok {A B : Type} (m : Py A) (k : A -> Py B) o a o' :
  m o = (Ok a, o') -> bind m k o = k a o'.
Proof. intros E. unfold bind. by rewrite E. Qed.

Lemma bind_err {A B : Type} (m : Py A) (k : A -> Py B) o e o' :
  m o = (Err e, o') -> bind m k o = (Err e, o').
Proof. intros E. unfold bind. by rewrite E. Qed.

Lemma getattr_some name (o : obj) v :
  o !! name = Some v -> getattr name o = (Ok v, o).
Proof. intros E. unfold getattr. by rewrite E. Qed.

Lemma getattr_none name (o : obj) :
  o !! name = None -> getattr name o = (Err (AttributeError name), o).
Proof. intros E. unfold getattr. by rewrite E. Qed.

Lemma assert_same_shape_ok a b o :
  shape a = shape b -> assert_same_shape a b o = (Ok tt, o).
Proof. intros E. unfold assert_same_shape. by rewrite decide_True. Qed.

Lemma assert_same_shape_fail a b o :
  shape a <> shape b ->
  assert_same_shape a b o = (Err (AssertionError (Some (shape b, shape a))), o).
Proof. intros E. unfold assert_same_shape. by rewrite decide_False. Qed.

(** ** The misspelt attribute [input_] *)

(** [forward] caches its argument as [input] and then runs the hook, and
    the hook of each concrete class starts by reading [input_]. *)
Lemma forward_without_input_ `{LibM} (c : concrete) (x : ndarray) (o : obj) :
  o !! "input_" = None ->
  forward_of c x o = (Err (AttributeError "input_"), <["input" := x]> o).
Proof.
  intros Ho.
  assert (Hi : (<["input" := x]> o) !! "input_" = None)
    by (rewrite lookup_insert_ne; done).
  destruct c; cbn [forward_of]; unfold Operation.forward;
    (erewrite bind_ok by reflexivity); apply bind_err; cbn;
    unfold WeightMultiply._output, BiasAdd._output, Sigmoid._output, Linear._output;
    try apply bind_err; by apply getattr_none.
Qed.

(** Without a cached [output], [backward] stops at its first line. *)
Lemma backward_without_output `{LibM} (c : concrete) (g : ndarray) (o : obj) :
  o !! "output" = None ->
  backward_of c g o = (Err (AttributeError "output"), o).
Proof.
  intros Ho.
  destruct c; cbn [backward_of];
    unfold Operation.backward, ParamOperation.backward;
    apply bind_err; by apply getattr_none.
Qed.

(** The hooks of the concrete classes only read the attributes. *)
Lemma call_readonly {A : Type} (r : result A) : readonly (call r).
Proof. by intros o. Qed.

Lemma getattr_readonly name : readonly (getattr name).
Proof. intros o. unfold getattr. by destruct (o !! name). Qed.

Lemma bind_readonly {A B : Type} (m : Py A) (k : A -> Py B) :
  readonly m -> (forall a, readonly (k a)) -> readonly (bind m k).
Proof.
  intros Hm Hk o. unfold bind. specialize (Hm o).
  destruct (m o) as [[a|e] o']; cbn in *; subst; [apply Hk | done].
Qed.

Lemma ret_readonly {A : Type} (a : A) : readonly (ret a).
Proof. by intros o. Qed.

Lemma raise_readonly {A : Type} (e : exn) : readonly (@raise A e).
Proof. by intros o. Qed.

Ltac readonly_tac :=
  repeat first
    [ apply bind_readonly; [ | intros ? ]
    | apply call_readonly | apply getattr_readonly
    | apply ret_readonly | apply raise_readonly
    | match goal with |- readonly (match ?x with _ => _ end) => destruct x end ].

Lemma hook_input_grad_readonly `{LibM} (c : concrete) g :
  readonly (match c with
            | WeightMultiplyOp => hook_input_grad WeightMultiply.cls g
            | BiasAddOp => hook_input_grad BiasAdd.cls g
            | SigmoidOp => hook_input_grad Sigmoid.cls g
            | LinearOp => hook_input_grad Linear.cls g
            end).
Proof.
  destruct c; cbn;
    unfold WeightMultiply._input_grad, BiasAdd._input_grad,
           Sigmoid._input_grad, Linear._input_grad;
    readonly_tac.
Qed.

Lemma hook_param_grad_readonly g :
  readonly (WeightMultiply._param_grad g) /\ readonly (BiasAdd._param_grad g).
Proof.
  split; unfold WeightMultiply._param_grad, BiasAdd._param_grad; readonly_tac.
Qed.

(** With read-only hooks, [backward] assigns [input_grad] (and, in the
    parametric variant, [param_grad]) and nothing else. *)
Lemma Operation_backward_assigns (self : hooks) g (o : obj) :
  readonly (hook_input_grad self g) ->
  (Operation.backward self g o).2 = o \/
  exists ig, (Operation.backward self g o).2 = <["input_grad" := ig]> o.
Proof.
  intros Hr. unfold Operation.backward, bind, getattr, setattr, assert_same_shape.
  destruct (o !! "output") as [y|]; [ | by left ].
  destruct (decide (shape y = shape g)) as [Hs|Hs]; cbn; [ | by left ].
  specialize (Hr o).
  destruct (hook_input_grad self g o) as [[ig|e] o1]; cbn in Hr; subst o1;
    [ | by left ].
  right. exists ig.
  repeat (case_match; simplify_eq; cbn in * ); try done;
    unfold ret, raise in *; by simplify_eq.
Qed.

Lemma ParamOperation_backward_assigns (self : param_hooks) g (o : obj) :
  readonly (hook_input_grad self g) -> readonly (hook_param_grad self g) ->
  (ParamOperation.backward self g o).2 = o \/
  (exists ig, (ParamOperation.backward self g o).2 = <["input_grad" := ig]> o) \/
  (exists ig pg, (ParamOperation.backward self g o).2
                 = <["param_grad" := pg]> (<["input_grad" := ig]> o)).
Proof.
  intros Hi Hp. unfold ParamOperation.backward, bind, getattr, setattr, assert_same_shape.
  destruct (o !! "output") as [y|]; [ | by left ].
  destruct (decide (shape y = shape g)) as [Hs|Hs]; cbn; [ | by left ].
  specialize (Hi o).
  destruct (hook_input_grad self g o) as [[ig|e] o1]; cbn in Hi; subst o1;
    [ | by left ].
  specialize (Hp (<["input_grad" := ig]> o)).
  destruct (hook_param_grad self g _) as [[pg|e] o2]; cbn in Hp; subst o2.
  - right; right. exists ig, pg. by case_match.
  - right; left. by exists ig.
Qed.

Lemma backward_keeps_input__absent `{LibM} (c : concrete) g (o : obj) :
  o !! "input_" = None -> (backward_of c g o).2 !! "input_" = None.
Proof.
  intros Ho.
  assert (Hcase : (backward_of c g o).2 = o \/
    (exists ig, (backward_of c g o).2 = <["input_grad" := ig]> o) \/
    (exists ig pg, (backward_of c g o).2
                   = <["param_grad" := pg]> (<["input_grad" := ig]> o))).
  { destruct c; cbn [backward_of].
    - apply ParamOperation_backward_assigns;
        [ apply (hook_input_grad_readonly WeightMultiplyOp)
        | apply hook_param_grad_readonly ].
    - apply ParamOperation_backward_assigns;
        [ apply (hook_input_grad_readonly BiasAddOp)
        | apply hook_param_grad_readonly ].
    - destruct (Operation_backward_assigns Sigmoid.cls g o) as [E|E];
        [ apply (hook_input_grad_readonly SigmoidOp) | by left | by right; left ].
    - destruct (Operation_backward_assigns Linear.cls g o) as [E|E];
        [ apply (hook_input_grad_readonly LinearOp) | by left | by right; left ]. }
  destruct Hcase as [-> | [[ig ->] | (ig & pg & ->)]]; [ done | | ];
    by rewrite ?lookup_insert_ne.
Qed.

(** No reachable instance has an attribute called [input_]. *)
Lemma reachable_input__absent `{LibM} (c : concrete) (o : obj) :
  reachable c o -> o !! "input_" = None.
Proof.
  induction 1 as [ | o x _ IH | o g _ IH ].
  - apply lookup_empty.
  - rewrite (forward_without_input_ c x o IH). cbn. by rewrite lookup_insert_ne.
  - by apply backward_keeps_input__absent.
Qed.

(** C3: on every instance of a concrete class, whatever calls were made on
    it before, [forward] raises [AttributeError] for the attribute
    [input_]: the argument has been cached under [input], and no method
    assigns [input_]. *)
Theorem forward_raises_AttributeError `{LibM} (c : concrete) (o : obj) (x : ndarray) :
  reachable c o ->
  forward_of c x o = (Err (AttributeError "input_"), <["input" := x]> o)
  /\ (<["input" := x]> o) !! "input_" = None.
Proof.
  intros Hr. pose proof (reachable_input__absent c o Hr) as Ho.
  split; [ by apply forward_without_input_ | by rewrite lookup_insert_ne ].
Qed.

Lemma forward_raises_AttributeError_witness :
  @reachable series_libm SigmoidOp
     (@forward_of series_libm SigmoidOp (full [2; 3] 1%float) ∅).2
  /\ (@forward_of series_libm SigmoidOp (full [1; 1] 0%float)
        (@forward_of series_libm SigmoidOp (full [2; 3] 1%float) ∅).2
      = (Err (AttributeError "input_"),
         <["input" := full [1; 1] 0%float]>
           (@forward_of series_libm SigmoidOp (full [2; 3] 1%float) ∅).2)
      /\ (<["input" := full [1; 1] 0%float]>
           (@forward_of series_libm SigmoidOp (full [2; 3] 1%float) ∅).2)
         !! "input_" = None).
Proof.
  split.
  - apply reach_forward, reach_new.
  - apply (@forward_raises_AttributeError series_libm SigmoidOp).
    apply reach_forward, reach_new.
Defined.

(** A reachable instance has no cached [output] either: [forward] raises
    before it assigns it, and [backward] raises on reading it. *)
Lemma reachable_output_absent `{LibM} (c : concrete) (o : obj) :
  reachable c o -> o !! "output" = None.
Proof.
  induction 1 as [ | o x Hr IH | o g _ IH ].
  - apply lookup_empty.
  - rewrite (forward_without_input_ c x o (reachable_input__absent c o Hr)).
    cbn. by rewrite lookup_insert_ne.
  - by rewrite (backward_without_output c g o IH).
Qed.

(** C1 (the code departs from the claim): on a fresh instance of any
    concrete class, [forward x] raises [AttributeError] instead of
    returning an array, and the [backward g] that follows raises
    [AttributeError] as well, because no [output] was cached. *)
Theorem forward_then_backward_raise `{LibM} (c : concrete) (x g : ndarray) :
  forward_of c x ∅ = (Err (AttributeError "input_"), <["input" := x]> ∅)
  /\ backward_of c g (<["input" := x]> ∅)
     = (Err (AttributeError "output"), <["input" := x]> ∅).
Proof.
  split.
  - apply forward_without_input_, lookup_empty.
  - apply backward_without_output. by rewrite lookup_insert_ne.
Qed.

(** The arithmetic of the [Sigmoid] hooks is the intended one: with the
    argument stored under the name the hook reads, and an exponential that
    maps zero to one, the output at [[0.0]] is [[0.5]]. *)
Lemma Sigmoid_output_at_zero `{LibM} (o : obj) :
  libm_exp (-0.0)%float = 1%float ->
  o !! "input_" = Some (full [1; 1] 0%float) ->
  Sigmoid._output o = (Ok (full [1; 1] 0.5%float), o).
Proof.
  intros Hexp Ho. unfold Sigmoid._output.
  erewrite bind_ok by (by apply getattr_some).
  unfold bind, call. cbn. unfold np.exp, np.ufunc1. cbn.
  replace (libm_exp _) with 1%float by (symmetry; exact Hexp).
  reflexivity.
Qed.

(** C5 (the code departs from the claim): [Sigmoid().forward([[0.0]])]
    raises [AttributeError] instead of returning [[0.5]], and the
    following [backward([[1.0]])] raises [AttributeError] instead of
    returning [[0.25]].  The gradient hook itself, run on a cached output
    [[0.5]], does give [[0.25]]. *)
Theorem Sigmoid_forward_backward_at_zero `{LibM} :
  Operation.forward Sigmoid.cls (full [1; 1] 0%float) ∅
  = (Err (AttributeError "input_"), <["input" := full [1; 1] 0%float]> ∅)
  /\ Operation.backward Sigmoid.cls (full [1; 1] 1%float)
       (<["input" := full [1; 1] 0%float]> ∅)
     = (Err (AttributeError "output"), <["input" := full [1; 1] 0%float]> ∅)
  /\ Sigmoid._input_grad (full [1; 1] 1%float)
       (<["output" := full [1; 1] 0.5%float]> ∅)
     = (Ok (full [1; 1] 0.25%float), <["output" := full [1; 1] 0.5%float]> ∅).
Proof.
  split; [ | split ].
  - apply (forward_without_input_ SigmoidOp), lookup_empty.
  - apply (backward_without_output SigmoidOp). by rewrite lookup_insert_ne.
  - reflexivity.
Qed.

(** C6 (the code departs from the claim): [Linear().forward(x)] raises
    [AttributeError] for every [x] instead of returning [x], and the
    following [backward(g)] raises [AttributeError] instead of returning
    [g].  Only the gradient hook is the identity. *)
Theorem Linear_forward_backward_raise (x g : ndarray) :
  Operation.forward Linear.cls x ∅
  = (Err (AttributeError "input_"), <["input" := x]> ∅)
  /\ Operation.backward Linear.cls g (<["input" := x]> ∅)
     = (Err (AttributeError "output"), <["input" := x]> ∅)
  /\ forall o : obj, Linear._input_grad g o = (Ok g, o).
Proof.
  split; [ | split ].
  - apply (@forward_without_input_ series_libm LinearOp), lookup_empty.
  - apply (@backward_without_output series_libm LinearOp). by rewrite lookup_insert_ne.
  - done.
Qed.

(** ** The misspelt call [super().__init_()] *)

(** Neither [Operation] nor [object] binds [__init_], which the compiler
    has turned into [_ParamOperation__init_]. *)
Lemma super_init__unbound :
  mangle "ParamOperation" "__init_" = "_ParamOperation__init_"
  /\ super_call [Operation.namespace; object_namespace]
       (mangle "ParamOperation" "__init_")
     = raise (AttributeError "_ParamOperation__init_").
Proof. split; reflexivity. Qed.

(** Spelt right, the call would resolve to [Operation.__init__]. *)
Lemma super_init_bound :
  super_call [Operation.namespace; object_namespace]
    (mangle "ParamOperation" "__init__")
  = Operation.__init__.
Proof. reflexivity. Qed.

Lemma ParamOperation_init_raises (param : ndarray) (o : obj) :
  ParamOperation.__init__ param o = (Err (AttributeError "_ParamOperation__init_"), o).
Proof.
  unfold ParamOperation.__init__. apply bind_err.
  by rewrite (proj2 super_init__unbound).
Qed.

Lemma BiasAdd_init_leading_one (B : ndarray) (o : obj) :
  head (shape B) = Some 1 ->
  BiasAdd.__init__ B o = (Err (AttributeError "_ParamOperation__init_"), o).
Proof.
  intros HB. unfold BiasAdd.__init__.
  destruct (shape B) as [ | d rest ]; [ done | ].
  cbn in HB. simplify_eq. rewrite decide_True by done.
  apply ParamOperation_init_raises.
Qed.

(** C4: constructing a parametric operation raises [AttributeError] for the
    misspelt [__init_], whatever the parameter array: [WeightMultiply] for every
    [W], [BiasAdd] for every [B] whose leading dimension is 1.  The
    exception leaves [__init__] before [self.param] is assigned, so the
    instance has no [param] and is never handed to the caller. *)
Theorem ParamOperation_construct_raises :
  (forall (W : ndarray) (o : obj),
     WeightMultiply.__init__ W o = (Err (AttributeError "_ParamOperation__init_"), o)
     /\ construct (WeightMultiply.__init__ W) = Err (AttributeError "_ParamOperation__init_"))
  /\ (forall (B : ndarray) (o : obj),
        head (shape B) = Some 1 ->
        BiasAdd.__init__ B o = (Err (AttributeError "_ParamOperation__init_"), o)
        /\ construct (BiasAdd.__init__ B) = Err (AttributeError "_ParamOperation__init_"))
  /\ (forall (param : ndarray) (o : obj),
        ParamOperation.__init__ param o = (Err (AttributeError "_ParamOperation__init_"), o)
        /\ (ParamOperation.__init__ param ∅).2 !! "param" = None).
Proof.
  split; [ | split ].
  - intros W o. unfold construct, WeightMultiply.__init__.
    by rewrite !ParamOperation_init_raises.
  - intros B o HB. unfold construct.
    by rewrite !BiasAdd_init_leading_one.
  - intros param o. by rewrite !ParamOperation_init_raises.
Qed.

Lemma ParamOperation_construct_raises_witness :
  construct (WeightMultiply.__init__ (full [3; 4] 1%float))
  = Err (AttributeError "_ParamOperation__init_")
  /\ head (shape (full [1; 5] 0%float)) = Some 1
  /\ construct (BiasAdd.__init__ (full [1; 5] 0%float))
     = Err (AttributeError "_ParamOperation__init_").
Proof.
  destruct ParamOperation_construct_raises as (HW & HB & _).
  split; [ apply (HW (full [3; 4] 1%float) ∅) | ].
  split; [ reflexivity | ].
  apply (HB (full [1; 5] 0%float) ∅). reflexivity.
Defined.

(** C9 (the code departs from the claim): [BiasAdd(B)] with [B] of shape
    [[1, 5]] does not succeed, it raises [AttributeError] from the misspelt
    [super().__init_()]; with [B] of shape [[2, 5]] it raises the
    [AssertionError] of the constructor's own check, before anything else
    runs. *)
Theorem BiasAdd_construct_1_5_and_2_5 (d1 d2 : list float) :
  construct (BiasAdd.__init__ (mk_ndarray [1; 5] d1))
  = Err (AttributeError "_ParamOperation__init_")
  /\ construct (BiasAdd.__init__ (mk_ndarray [2; 5] d2))
     = Err (AssertionError None).
Proof.
  split.
  - unfold construct. by rewrite BiasAdd_init_leading_one.
  - reflexivity.
Qed.

(** ** Shape checks of [backward] *)

(** When [forward] returns, what it returns is cached as [output]. *)
Lemma forward_caches_output (self : hooks) (x y : ndarray) (o o' : obj) :
  Operation.forward self x o = (Ok y, o') -> o' !! "output" = Some y.
Proof.
  unfold Operation.forward, bind, setattr, getattr.
  destruct (hook_output self (<["input" := x]> o)) as [[out|e] o1]; [ | done ].
  rewrite lookup_insert_eq. intros [= <- <-]. apply lookup_insert_eq.
Qed.

Lemma Operation_backward_rejects (self : hooks) (g y : ndarray) (o : obj) :
  o !! "output" = Some y -> shape g <> shape y ->
  Operation.backward self g o = (Err (AssertionError (Some (shape g, shape y))), o).
Proof.
  intros Ho Hs. unfold Operation.backward.
  erewrite bind_ok by (by apply getattr_some).
  apply bind_err, assert_same_shape_fail. congruence.
Qed.

Lemma ParamOperation_backward_rejects (self : param_hooks) (g y : ndarray) (o : obj) :
  o !! "output" = Some y -> shape g <> shape y ->
  ParamOperation.backward self g o
  = (Err (AssertionError (Some (shape g, shape y))), o).
Proof.
  intros Ho Hs. unfold ParamOperation.backward.
  erewrite bind_ok by (by apply getattr_some).
  apply bind_err, assert_same_shape_fail. congruence.
Qed.

(** C2: for every operation (whatever its hooks), once [forward x] has
    returned an array [y], a [backward g] with [g.shape != y.shape] raises
    the [AssertionError] of [assert_same_shape]; it returns no value and
    leaves every attribute as [forward] left it.  This holds for the
    [backward] of [Operation] and for the one of [ParamOperation]. *)
Theorem backward_rejects_other_shape :
  (forall (self : hooks) (x g y : ndarray) (o o' : obj),
     Operation.forward self x o = (Ok y, o') ->
     shape g <> shape y ->
     Operation.backward self g o'
     = (Err (AssertionError (Some (shape g, shape y))), o'))
  /\ (forall (self : param_hooks) (x g y : ndarray) (o o' : obj),
        Operation.forward self x o = (Ok y, o') ->
        shape g <> shape y ->
        ParamOperation.backward self g o'
        = (Err (AssertionError (Some (shape g, shape y))), o')).
Proof.
  split; intros self x g y o o' Hf Hs.
  - eapply Operation_backward_rejects; [ by eapply forward_caches_output | done ].
  - eapply ParamOperation_backward_rejects; [ by eapply forward_caches_output | done ].
Qed.

(** C10: after computing [input_grad], the [backward] of [Operation] raises
    the [AssertionError] of [assert_same_shape] when its shape differs from
    the cached input's; the [backward] of [ParamOperation] compares only
    [output_grad] with the cached output, and returns [input_grad] whatever
    the cached input is. *)
Theorem backward_input_grad_check :
  (forall (self : hooks) (g y x ig : ndarray) (o o1 : obj),
     o !! "output" = Some y -> shape y = shape g ->
     hook_input_grad self g o = (Ok ig, o1) ->
     o1 !! "input" = Some x -> shape x <> shape ig ->
     Operation.backward self g o
     = (Err (AssertionError (Some (shape ig, shape x))), <["input_grad" := ig]> o1))
  /\ (forall (self : param_hooks) (g y ig pg r : ndarray) (o o1 o2 : obj),
        o !! "output" = Some y -> shape y = shape g ->
        hook_input_grad self g o = (Ok ig, o1) ->
        hook_param_grad self g (<["input_grad" := ig]> o1) = (Ok pg, o2) ->
        o2 !! "input_grad" = Some r ->
        ParamOperation.backward self g o = (Ok r, <["param_grad" := pg]> o2)).
Proof.
  split.
  - intros self g y x ig o o1 Ho Hs Hh Hx Hne. unfold Operation.backward.
    erewrite bind_ok by (by apply getattr_some).
    erewrite bind_ok by (by apply assert_same_shape_ok).
    erewrite bind_ok by exact Hh.
    erewrite bind_ok by reflexivity.
    erewrite bind_ok by (apply getattr_some; by rewrite lookup_insert_ne).
    erewrite bind_ok by (apply getattr_some; by rewrite lookup_insert_eq).
    apply bind_err. by apply assert_same_shape_fail.
  - intros self g y ig pg r o o1 o2 Ho Hs Hi Hp Hr. unfold ParamOperation.backward.
    erewrite bind_ok by (by apply getattr_some).
    erewrite bind_ok by (by apply assert_same_shape_ok).
    erewrite bind_ok by exact Hi.
    erewrite bind_ok by reflexivity.
    erewrite bind_ok by exact Hp.
    erewrite bind_ok by reflexivity.
    apply getattr_some. by rewrite lookup_insert_ne.
Qed.

(** The hypotheses are met by the library's own classes on an instance to
    which the caller has assigned [input_] by hand. *)
Lemma backward_rejects_other_shape_witness :
  (Operation.forward Linear.cls (full [1] 3%float) patched_Linear
   = (Ok (full [2] 7%float), forwarded_Linear)
   /\ Operation.backward Linear.cls (full [1] 3%float) forwarded_Linear
      = (Err (AssertionError (Some ([1], [2]))), forwarded_Linear))
  /\ (Operation.forward WeightMultiply.cls (full [1; 1] 0%float) patched_WeightMultiply
      = (Ok (full [2; 4] 3%float), forwarded_WeightMultiply)
      /\ ParamOperation.backward WeightMultiply.cls (full [2; 3] 1%float)
           forwarded_WeightMultiply
         = (Err (AssertionError (Some ([2; 3], [2; 4]))), forwarded_WeightMultiply)).
Proof.
  destruct backward_rejects_other_shape as [HO HP].
  split; (split; [ reflexivity | ]).
  - apply (HO Linear.cls (full [1] 3%float) (full [1] 3%float) (full [2] 7%float)
              patched_Linear forwarded_Linear); [ reflexivity | discriminate ].
  - apply (HP WeightMultiply.cls (full [1; 1] 0%float) (full [2; 3] 1%float)
              (full [2; 4] 3%float) patched_WeightMultiply forwarded_WeightMultiply);
      [ reflexivity | discriminate ].
Defined.

Lemma backward_input_grad_check_witness :
  Operation.backward Linear.cls (full [2] 1%float) forwarded_Linear
  = (Err (AssertionError (Some ([2], [1]))),
     <["input_grad" := full [2] 1%float]> forwarded_Linear)
  /\ ParamOperation.backward WeightMultiply.cls (full [2; 4] 1%float)
       forwarded_WeightMultiply
     = (Ok (full [2; 3] 4%float),
        <["param_grad" := full [3; 4] 2%float]>
          (<["input_grad" := full [2; 3] 4%float]> forwarded_WeightMultiply)).
Proof.
  destruct backward_input_grad_check as [HO HP]. split.
  - apply (HO Linear.cls (full [2] 1%float) (full [2] 7%float) (full [1] 3%float)
              (full [2] 1%float) forwarded_Linear forwarded_Linear);
      [ reflexivity | reflexivity | reflexivity | reflexivity | discriminate ].
  - apply (HP WeightMultiply.cls (full [2; 4] 1%float) (full [2; 4] 3%float)
              (full [2; 3] 4%float) (full [3; 4] 2%float) (full [2; 3] 4%float)
              forwarded_WeightMultiply forwarded_WeightMultiply
              (<["input_grad" := full [2; 3] 4%float]> forwarded_WeightMultiply));
      reflexivity.
Defined.

(** ** Gradients of the parametric operations *)

(** C8: on a [BiasAdd] whose [param] has shape [[1, 5]] (its values do not
    matter, and neither does the cached input), [_param_grad] of an
    [output_grad] of shape [[4, 5]] filled with 1.0 returns the array
    [[4.0, 4.0, 4.0, 4.0, 4.0]] of shape [[1, 5]], the sum of [output_grad]
    over its first axis, and leaves the instance as it was. *)
Theorem BiasAdd_param_grad_of_ones (o : obj) (param : ndarray) :
  o !! "param" = Some param ->
  shape param = [1; 5] ->
  BiasAdd._param_grad (full [4; 5] 1%float) o
  = (Ok (mk_ndarray [1; 5] [4; 4; 4; 4; 4]%float), o).
Proof.
  intros Ho Hs. unfold BiasAdd._param_grad.
  erewrite bind_ok by (by apply getattr_some).
  unfold np.ones_like. rewrite Hs.
  reflexivity.
Qed.

Lemma BiasAdd_param_grad_of_ones_witness :
  BiasAdd._param_grad (full [4; 5] 1%float)
    (<["input" := full [4; 5] 2%float]> {["param" := full [1; 5] 0.5%float]})
  = (Ok (mk_ndarray [1; 5] [4; 4; 4; 4; 4]%float),
     <["input" := full [4; 5] 2%float]> {["param" := full [1; 5] 0.5%float]}).
Proof.
  apply (BiasAdd_param_grad_of_ones _ (full [1; 5] 0.5%float));
    reflexivity.
Defined.

(** *** Indexing into buffers built row by row *)

Lemma nth_map_seq {A : Type} (f : nat -> A) (n c : nat) (d : A) :
  c < n -> nth c (map f (seq 0 n)) d = f c.
Proof.
  intros Hc.
  rewrite (nth_indep _ d (f 0)) by (rewrite length_map, length_seq; lia).
  rewrite map_nth, seq_nth by lia. done.
Qed.

Lemma length_flat_map_blocks {A : Type} (f : nat -> list A) (p : nat) :
  (forall r, length (f r) = p) ->
  forall R s, length (flat_map f (seq s R)) = R * p.
Proof.
  intros Hlen. induction R as [ | R IH ]; intros s; [ done | ].
  cbn [seq flat_map]. rewrite length_app, Hlen, IH. lia.
Qed.

Lemma nth_flat_map_blocks {A : Type} (f : nat -> list A) (p : nat) (d : A) :
  (forall r, length (f r) = p) ->
  forall R s r c, r < R -> c < p ->
    nth (r * p + c) (flat_map f (seq s R)) d = nth c (f (s + r)) d.
Proof.
  intros Hlen. induction R as [ | R IH ]; intros s r c Hr Hc; [ lia | ].
  cbn [seq flat_map]. destruct r as [ | r ].
  - cbn [Nat.mul Nat.add]. rewrite app_nth1 by (rewrite Hlen; lia).
    by rewrite Nat.add_0_r.
  - rewrite app_nth2 by (rewrite Hlen; lia). rewrite Hlen.
    replace (S r * p + c - p) with (r * p + c) by lia.
    rewrite IH by lia. do 2 f_equal. lia.
Qed.

(** [np.transpose(a, (1, 0))] of an [m] by [n] array is the [n] by [m]
    array with the indices swapped. *)
Lemma transpose_1_0_spec (a : ndarray) (m n : nat) :
  shape a = [m; n] ->
  exists t, np.transpose_1_0 a = Ok t /\ shape t = [n; m] /\ wf t
            /\ forall i j, i < n -> j < m -> item2 m t i j = item2 n a j i.
Proof.
  intros Hs. unfold np.transpose_1_0. rewrite Hs.
  eexists. split; [ reflexivity | ]. split; [ reflexivity | ]. split.
  - unfold wf. cbn.
    rewrite (length_flat_map_blocks _ m) by (intros; by rewrite length_map, length_seq).
    lia.
  - intros i j Hi Hj. unfold item2 at 1, item at 1. cbn [data].
    rewrite (nth_flat_map_blocks _ m) by
      (first [ intros; by rewrite length_map, length_seq | lia ]).
    by rewrite nth_map_seq.
Qed.

(** [np.dot] of an [m] by [n] and an [n] by [p] array succeeds and gives a
    well-formed [m] by [p] array. *)
Lemma dot_2d_spec (a b : ndarray) (m n p : nat) :
  shape a = [m; n] -> shape b = [n; p] ->
  exists r, np.dot a b = Ok r /\ shape r = [m; p] /\ wf r.
Proof.
  intros Ha Hb. unfold np.dot. rewrite Ha, Hb. cbn.
  rewrite Nat.eqb_refl, Nat.mul_1_r.
  eexists. split; [ reflexivity | ]. split; [ reflexivity | ].
  unfold wf, np.contract. cbn [data shape size_of foldr].
  rewrite (length_flat_map_blocks _ p); [ lia | ].
  intros r. cbn. by rewrite length_app, length_map, length_seq.
Qed.

(** C7 (the code departs from the claim): with [param] of shape
    [[in_features, out_features]] and [output_grad] of shape
    [[batch, out_features]], [_input_grad] returns what [np.dot] makes of
    [output_grad] and the transpose of [param], a well-formed array of shape
    [[batch, in_features]].  [_param_grad] however reads [input_], not the
    [input] that [forward] caches: on an instance without [input_] it raises
    [AttributeError], and [np.dot] of the transpose and [output_grad], of
    shape [[in_features, out_features]], is computed only from an array
    found under [input_]. *)
Theorem WeightMultiply_gradients :
  (forall (o : obj) (param g : ndarray) (batch inf outf : nat),
     o !! "param" = Some param ->
     shape param = [inf; outf] -> shape g = [batch; outf] ->
     exists pT r,
       np.transpose_1_0 param = Ok pT
       /\ (forall i j, i < outf -> j < inf -> item2 inf pT i j = item2 outf param j i)
       /\ np.dot g pT = Ok r
       /\ WeightMultiply._input_grad g o = (Ok r, o)
       /\ shape r = [batch; inf] /\ wf r)
  /\ (forall (o : obj) (g : ndarray),
        o !! "input_" = None ->
        WeightMultiply._param_grad g o = (Err (AttributeError "input_"), o))
  /\ (forall (o : obj) (x g : ndarray) (batch inf outf : nat),
        o !! "input_" = Some x ->
        shape x = [batch; inf] -> shape g = [batch; outf] ->
        exists xT r,
          np.transpose_1_0 x = Ok xT
          /\ (forall i j, i < inf -> j < batch -> item2 batch xT i j = item2 inf x j i)
          /\ np.dot xT g = Ok r
          /\ WeightMultiply._param_grad g o = (Ok r, o)
          /\ shape r = [inf; outf] /\ wf r).
Proof.
  split; [ | split ].
  - intros o param g batch inf outf Ho Hp Hg.
    destruct (transpose_1_0_spec param inf outf Hp) as (pT & HT & HsT & _ & HiT).
    destruct (dot_2d_spec g pT batch outf inf Hg HsT) as (r & Hd & Hsr & Hwf).
    exists pT, r. split; [ done | ]. split; [ done | ]. split; [ done | ].
    split; [ | done ].
    unfold WeightMultiply._input_grad.
    erewrite bind_ok by (by apply getattr_some).
    unfold bind, call. by rewrite HT, Hd.
  - intros o g Ho. unfold WeightMultiply._param_grad.
    apply bind_err. by apply getattr_none.
  - intros o x g batch inf outf Ho Hx Hg.
    destruct (transpose_1_0_spec x batch inf Hx) as (xT & HT & HsT & _ & HiT).
    destruct (dot_2d_spec xT g inf batch outf HsT Hg) as (r & Hd & Hsr & Hwf).
    exists xT, r. split; [ done | ]. split; [ done | ]. split; [ done | ].
    split; [ | done ].
    unfold WeightMultiply._param_grad.
    erewrite bind_ok by (by apply getattr_some).
    unfold bind, call. by rewrite HT, Hd.
Qed.

(** After [forward] on a [WeightMultiply] that was given its [param] by
    hand, the input gradient is computed and the parameter gradient is
    not. *)
Lemma WeightMultiply_gradients_witness :
  (exists r,
     WeightMultiply._input_grad (full [2; 4] 1%float)
       (<["input" := full [2; 3] 1%float]> {["param" := full [3; 4] 1%float]})
     = (Ok r, <["input" := full [2; 3] 1%float]> {["param" := full [3; 4] 1%float]})
     /\ shape r = [2; 3])
  /\ WeightMultiply._param_grad (full [2; 4] 1%float)
       (<["input" := full [2; 3] 1%float]> {["param" := full [3; 4] 1%float]})
     = (Err (AttributeError "input_"),
        <["input" := full [2; 3] 1%float]> {["param" := full [3; 4] 1%float]})
  /\ (exists r,
        WeightMultiply._param_grad (full [2; 4] 1%float) patched_WeightMultiply
        = (Ok r, patched_WeightMultiply)
        /\ shape r = [3; 4]).
Proof.
  destruct WeightMultiply_gradients as (Hin & Hmiss & Hpar).
  split; [ | split ].
  - destruct (Hin (<["input" := full [2; 3] 1%float]> {["param" := full [3; 4] 1%float]})
                  (full [3; 4] 1%float) (full [2; 4] 1%float) 2 3 4)
      as (pT & r & _ & _ & _ & Hr & Hs & _);
      [ reflexivity | reflexivity | reflexivity | ].
    exists r. split; assumption.
  - apply Hmiss. reflexivity.
  - destruct (Hpar patched_WeightMultiply (full [2; 3] 1%float) (full [2; 4] 1%float) 2 3 4)
      as (xT & r & _ & _ & _ & Hr & Hs & _);
      [ reflexivity | reflexivity | reflexivity | ].
    exists r. split; assumption.
Defined.

(** * Further properties of the library *)

(** ** Broadcasting, for the shapes the operations meet *)

Lemma size_of_app (s1 s2 : list nat) : size_of (s1 ++ s2) = size_of s1 * size_of s2.
Proof.
  unfold size_of. induction s1 as [ | d s1 IH ]; cbn; [ lia | ].
  rewrite IH. lia.
Qed.

Lemma size_of_reverse (s : list nat) : size_of (reverse s) = size_of s.
Proof.
  induction s as [ | d s IH ]; [ done | ].
  rewrite reverse_cons, size_of_app, IH. unfold size_of. cbn. lia.
Qed.

Lemma broadcast_rev_same (r : list nat) : np.broadcast_rev r r = Some r.
Proof.
  induction r as [ | d r IH ]; [ done | ].
  cbn. unfold np.broadcast_dim. by rewrite Nat.eqb_refl, IH.
Qed.

Lemma broadcast_shapes_same (s : list nat) : np.broadcast_shapes s s = Some s.
Proof.
  unfold np.broadcast_shapes. rewrite broadcast_rev_same. cbn.
  by rewrite reverse_involutive.
Qed.

Lemma broadcast_shapes_scalar (s : list nat) : np.broadcast_shapes [] s = Some s.
Proof.
  unfold np.broadcast_shapes. cbn. by rewrite reverse_involutive.
Qed.

Lemma source_index_same (r : list nat) (i : nat) :
  i < size_of r -> np.source_index r r i = i.
Proof.
  revert i. induction r as [ | d r IH ]; intros i Hi; cbn in *; [ lia | ].
  assert (Hd : d <> 0) by (intros ->; cbn in Hi; lia).
  fold (size_of r) in Hi.
  rewrite IH by (apply Nat.Div0.div_lt_upper_bound; lia).
  destruct (d =? 1) eqn:E.
  - apply Nat.eqb_eq in E. subst d. rewrite Nat.div_1_r. lia.
  - pose proof (Nat.div_mod_eq i d). lia.
Qed.

Lemma map_nth_seq {A : Type} (l : list A) (d : A) :
  map (fun i => nth i l d) (seq 0 (length l)) = l.
Proof.
  apply (nth_ext _ _ d d); [ by rewrite length_map, length_seq | ].
  intros n Hn. rewrite length_map, length_seq in Hn. by rewrite nth_map_seq.
Qed.

Lemma map_const_seq {A : Type} (c : A) (n s : nat) :
  map (fun _ => c) (seq s n) = replicate n c.
Proof. revert s. induction n as [ | n IH ]; intros s; cbn; [ done | by rewrite IH ]. Qed.

Lemma broadcast_to_same (a : ndarray) : wf a -> np.broadcast_to a (shape a) = data a.
Proof.
  intros Hwf. unfold np.broadcast_to. rewrite <- Hwf.
  rewrite <- (map_nth_seq (data a) 0%float) at 2.
  apply map_ext_in. intros i Hi%in_seq.
  unfold item. rewrite source_index_same; [ done | ].
  rewrite size_of_reverse, <- Hwf. lia.
Qed.

Lemma broadcast_to_scalar (c : float) (s : list nat) :
  np.broadcast_to (scalar c) s = replicate (size_of s) c.
Proof. unfold np.broadcast_to. cbn. apply map_const_seq. Qed.

Lemma zip_with_replicate_l {A B C : Type} (f : A -> B -> C) (c : A) (l : list B) :
  zip_with f (replicate (length l) c) l = map (f c) l.
Proof. induction l as [ | x l IH ]; cbn; [ done | by rewrite IH ]. Qed.

Lemma nth_zip_with {A B C : Type} (f : A -> B -> C) (l1 : list A) (l2 : list B)
    (i : nat) (d1 : A) (d2 : B) (d : C) :
  i < length l1 -> i < length l2 ->
  nth i (zip_with f l1 l2) d = f (nth i l1 d1) (nth i l2 d2).
Proof.
  revert l2 i. induction l1 as [ | x l1 IH ]; intros [ | y l2 ] [ | i ] H1 H2;
    cbn in *; try lia; [ done | ].
  apply IH; lia.
Qed.

(** An element-wise operator on two arrays of one shape keeps the shape and
    pairs the buffers; with a Python float on the left it maps over the
    array. *)
Lemma ufunc2_same_shape (f : float -> float -> float) (a b : ndarray) :
  shape a = shape b -> wf a -> wf b ->
  np.ufunc2 f a b = Ok {| shape := shape a; data := zip_with f (data a) (data b) |}.
Proof.
  intros Hs Ha Hb. unfold np.ufunc2. rewrite <- Hs, broadcast_shapes_same.
  rewrite broadcast_to_same by done.
  rewrite Hs, broadcast_to_same by done. by rewrite <- Hs.
Qed.

Lemma ufunc2_scalar_l (f : float -> float -> float) (c : float) (b : ndarray) :
  wf b ->
  np.ufunc2 f (scalar c) b = Ok {| shape := shape b; data := map (f c) (data b) |}.
Proof.
  intros Hb. unfold np.ufunc2. cbn [shape scalar].
  rewrite broadcast_shapes_scalar, broadcast_to_scalar, broadcast_to_same by done.
  by rewrite <- Hb, zip_with_replicate_l.
Qed.

Lemma ufunc2_scalar_l_ok (f : float -> float -> float) (c : float) (b : ndarray) :
  exists r, np.ufunc2 f (scalar c) b = Ok r /\ shape r = shape b.
Proof.
  unfold np.ufunc2. cbn [shape scalar]. rewrite broadcast_shapes_scalar.
  eexists. split; reflexivity.
Qed.

Lemma wf_map (f : float -> float) (a : ndarray) :
  wf a -> wf {| shape := shape a; data := map f (data a) |}.
Proof. unfold wf. cbn. by rewrite length_map. Qed.

(** ** What the hooks compute from [input_] *)

(** The value of [forward] is the value of the hook. *)
Lemma forward_result (self : hooks) (x : ndarray) (o : obj) :
  (Operation.forward self x o).1 = (hook_output self (<["input" := x]> o)).1.
Proof.
  unfold Operation.forward, bind, setattr, getattr.
  destruct (hook_output self (<["input" := x]> o)) as [[out|e] o1]; cbn; [ | done ].
  by rewrite lookup_insert_eq.
Qed.

(** The hook that [forward] reaches on an instance of class [c]. *)
Lemma forward_of_result `{LibM} (c : concrete) (x : ndarray) (o : obj) :
  (forward_of c x o).1
  = (match c with
     | WeightMultiplyOp => WeightMultiply._output
     | BiasAddOp => BiasAdd._output
     | SigmoidOp => Sigmoid._output
     | LinearOp => Linear._output
     end (<["input" := x]> o)).1.
Proof. destruct c; apply forward_result. Qed.

Lemma hook_output_frame `{LibM} (c : concrete) (x1 x2 : ndarray) (o : obj) :
  (match c with
   | WeightMultiplyOp => WeightMultiply._output
   | BiasAddOp => BiasAdd._output
   | SigmoidOp => Sigmoid._output
   | LinearOp => Linear._output
   end (<["input" := x1]> o)).1
  = (match c with
     | WeightMultiplyOp => WeightMultiply._output
     | BiasAddOp => BiasAdd._output
     | SigmoidOp => Sigmoid._output
     | LinearOp => Linear._output
     end (<["input" := x2]> o)).1.
Proof.
  destruct c;
    unfold WeightMultiply._output, BiasAdd._output, Sigmoid._output, Linear._output,
           bind, getattr, call;
    rewrite !(lookup_insert_ne _ "input" "input_") by done;
    destruct (o !! "input_") as [a|]; cbn; try done;
    rewrite ?(lookup_insert_ne _ "input" "param") by done;
    try (destruct (o !! "param") as [p|]; cbn; done);
    repeat (case_match; cbn; try done).
Qed.

(** X1: [forward] never uses its argument: on any instance of a concrete
    class, two calls with different arrays give the same result (the same
    array or the same exception), because the hooks read [input_] and
    [param], never the [input] that [forward] has just assigned. *)
Theorem forward_ignores_its_argument `{LibM} (c : concrete) (x1 x2 : ndarray) (o : obj) :
  (forward_of c x1 o).1 = (forward_of c x2 o).1.
Proof.
  rewrite !forward_of_result. apply hook_output_frame.
Qed.

(** The three array operations of [Sigmoid._output], fused. *)
Lemma Sigmoid_output_value `{LibM} (o : obj) (a : ndarray) :
  o !! "input_" = Some a -> wf a ->
  Sigmoid._output o
  = (Ok {| shape := shape a;
           data := map (fun v => PrimFloat.div 1 (PrimFloat.add 1
                                   (libm_exp (PrimFloat.mul (-1.0) v))))
                       (data a) |}, o).
Proof.
  intros Ho Hwf. unfold Sigmoid._output.
  erewrite bind_ok by (by apply getattr_some).
  unfold bind, call, np.multiply, np.add, np.divide, np.exp, np.ufunc1.
  rewrite ufunc2_scalar_l by done. cbn [shape data].
  rewrite ufunc2_scalar_l by (unfold wf in *; cbn; by rewrite !length_map).
  cbn [shape data].
  rewrite ufunc2_scalar_l by (unfold wf in *; cbn; by rewrite !length_map).
  cbn [shape data]. by rewrite !map_map.
Qed.

(** X2: on an instance whose [input_] is a well-formed array, the hook of
    [Sigmoid] returns an array of the same shape, each element [v] of
    [input_] replaced by [1 / (1 + exp(-1 * v))], and changes nothing. *)
Theorem Sigmoid_output_elementwise `{LibM} (o : obj) (a : ndarray) :
  o !! "input_" = Some a -> wf a ->
  Sigmoid._output o
  = (Ok {| shape := shape a;
           data := map (fun v => PrimFloat.div 1 (PrimFloat.add 1
                                   (libm_exp (PrimFloat.mul (-1.0) v))))
                       (data a) |}, o).
Proof. apply Sigmoid_output_value. Qed.

Lemma Sigmoid_output_elementwise_witness :
  @Sigmoid._output series_libm {["input_" := full [1; 2] 0%float]}
  = (Ok {| shape := [1; 2];
           data := map (fun v => PrimFloat.div 1 (PrimFloat.add 1
                                   (exp_series (PrimFloat.mul (-1.0) v))))
                       [0; 0]%float |},
     {["input_" := full [1; 2] 0%float]}).
Proof.
  apply (@Sigmoid_output_elementwise series_libm _ (full [1; 2] 0%float));
    reflexivity.
Defined.

(** The three products of [Sigmoid._input_grad], fused. *)
Lemma Sigmoid_input_grad_value (o : obj) (y g : ndarray) :
  o !! "output" = Some y -> wf y -> wf g -> shape y = shape g ->
  Sigmoid._input_grad g o
  = (Ok {| shape := shape g;
           data := zip_with PrimFloat.mul
                     (map (fun v => PrimFloat.mul v (PrimFloat.sub 1 v)) (data y))
                     (data g) |}, o).
Proof.
  intros Ho Hy Hg Hs. unfold Sigmoid._input_grad.
  do 2 (erewrite bind_ok by (by apply getattr_some)).
  unfold bind, call, np.subtract, np.multiply.
  rewrite ufunc2_scalar_l by done.
  rewrite ufunc2_same_shape by (first [ done | by apply wf_map ]).
  cbn [shape data].
  rewrite ufunc2_same_shape;
    [ | done | unfold wf in *; cbn [shape data];
               rewrite length_zip_with, length_map; rewrite <- Hy; lia | done ].
  cbn [shape data]. rewrite Hs. do 3 f_equal.
  rewrite zip_with_fmap_r, zip_with_diag. done.
Qed.

(** X3: on an instance whose cached [output] is a well-formed array [y],
    the gradient hook of [Sigmoid], given a well-formed [output_grad] of the
    shape of [y], returns an array of that shape whose elements are
    [y * (1 - y) * output_grad], and changes nothing. *)
Theorem Sigmoid_input_grad_elementwise (o : obj) (y g : ndarray) :
  o !! "output" = Some y -> wf y -> wf g -> shape y = shape g ->
  Sigmoid._input_grad g o
  = (Ok {| shape := shape g;
           data := zip_with PrimFloat.mul
                     (map (fun v => PrimFloat.mul v (PrimFloat.sub 1 v)) (data y))
                     (data g) |}, o).
Proof. apply Sigmoid_input_grad_value. Qed.

Lemma Sigmoid_input_grad_elementwise_witness :
  Sigmoid._input_grad (full [2] 1%float) {["output" := full [2] 0.5%float]}
  = (Ok {| shape := [2];
           data := zip_with PrimFloat.mul
                     (map (fun v => PrimFloat.mul v (PrimFloat.sub 1 v)) [0.5; 0.5]%float)
                     [1; 1]%float |},
     {["output" := full [2] 0.5%float]}).
Proof.
  apply (Sigmoid_input_grad_elementwise _ (full [2] 0.5%float) (full [2] 1%float));
    reflexivity.
Defined.

(** ** How [forward] and [backward] compose *)

(** X4: on a [Sigmoid] whose [input_] holds a well-formed array [a], a
    [forward(x)] with [x] of the shape of [a] returns the logistic transform
    of [a] (not of [x]), and the [backward(g)] that follows, with [g] of that
    shape, passes both shape checks and returns an array of the shape of
    [x], which it caches as [input_grad]. *)
Theorem Sigmoid_cycle_with_input_ `{LibM} (o : obj) (a x g : ndarray) :
  o !! "input_" = Some a -> wf a -> wf g ->
  shape x = shape a -> shape g = shape a ->
  exists y r,
    Operation.forward Sigmoid.cls x o
    = (Ok y, <["output" := y]> (<["input" := x]> o))
    /\ data y = map (fun v => PrimFloat.div 1 (PrimFloat.add 1
                               (libm_exp (PrimFloat.mul (-1.0) v)))) (data a)
    /\ Operation.backward Sigmoid.cls g (<["output" := y]> (<["input" := x]> o))
       = (Ok r, <["input_grad" := r]> (<["output" := y]> (<["input" := x]> o)))
    /\ shape r = shape x.
Proof.
  intros Ho Ha Hg Hx Hsg.
  eexists _, _. split; [ | split; [ | split ] ].
  - unfold Operation.forward.
    erewrite bind_ok by reflexivity.
    erewrite bind_ok by
      (cbn [hook_output Sigmoid.cls]; apply Sigmoid_output_value;
       [ by rewrite lookup_insert_ne | done ]).
    erewrite bind_ok by reflexivity.
    apply getattr_some, lookup_insert_eq.
  - reflexivity.
  - unfold Operation.backward.
    erewrite bind_ok by (apply getattr_some, lookup_insert_eq).
    erewrite bind_ok by (apply assert_same_shape_ok; cbn; congruence).
    erewrite bind_ok by
      (cbn [hook_input_grad Sigmoid.cls]; apply Sigmoid_input_grad_value;
       [ apply lookup_insert_eq | by apply wf_map | done | cbn; congruence ]).
    erewrite bind_ok by reflexivity.
    erewrite bind_ok by
      (apply getattr_some; rewrite !lookup_insert_ne by done; apply lookup_insert_eq).
    erewrite bind_ok by (apply getattr_some, lookup_insert_eq).
    erewrite bind_ok by (apply assert_same_shape_ok; cbn; congruence).
    apply getattr_some, lookup_insert_eq.
  - cbn. congruence.
Qed.

Lemma Sigmoid_cycle_with_input__witness :
  exists y r,
    @Operation.forward (@Sigmoid.cls series_libm) (full [1; 1] 3%float)
       {["input_" := full [1; 1] 0%float]}
    = (Ok y, <["output" := y]> (<["input" := full [1; 1] 3%float]>
                                  {["input_" := full [1; 1] 0%float]}))
    /\ data y = [0.5%float]
    /\ shape r = [1; 1].
Proof.
  destruct (@Sigmoid_cycle_with_input_ series_libm
              {["input_" := full [1; 1] 0%float]}
              (full [1; 1] 0%float) (full [1; 1] 3%float) (full [1; 1] 1%float))
    as (y & r & Hf & Hy & _ & Hr); try reflexivity.
  exists y, r. split; [ exact Hf | ]. split; [ by rewrite Hy | exact Hr ].
Defined.

(** X5: when a [backward] returns, the checks have held.  If the one of
    [Operation] returns [r], the instance had a cached [output] of the shape
    of [output_grad], [r] is cached as [input_grad], and the cached [input]
    has the shape of [r].  If the one of [ParamOperation] returns [r], the
    cached [output] had the shape of [output_grad] and both gradients are
    cached, [r] as [input_grad]. *)
Theorem backward_returns_only_checked :
  (forall (self : hooks) (g r : ndarray) (o o' : obj),
     Operation.backward self g o = (Ok r, o') ->
     exists y x,
       o !! "output" = Some y /\ shape y = shape g
       /\ o' !! "input" = Some x /\ shape x = shape r
       /\ o' !! "input_grad" = Some r)
  /\ (forall (self : param_hooks) (g r : ndarray) (o o' : obj),
        ParamOperation.backward self g o = (Ok r, o') ->
        exists y,
          o !! "output" = Some y /\ shape y = shape g
          /\ o' !! "input_grad" = Some r /\ is_Some (o' !! "param_grad")).
Proof.
  split.
  - intros self g r o o'.
    unfold Operation.backward, bind, getattr, setattr, assert_same_shape, ret, raise.
    destruct (o !! "output") as [y|] eqn:Ey; [ | done ].
    destruct (decide (shape y = shape g)) as [Hs|]; [ | done ].
    destruct (hook_input_grad self g o) as [[ig|e] o1]; [ | done ].
    cbn. rewrite lookup_insert_ne by done.
    destruct (o1 !! "input") as [x|] eqn:Ex; [ | done ].
    cbn. rewrite lookup_insert_eq.
    destruct (decide (shape x = shape ig)) as [Hx|]; [ | done ].
    cbn. rewrite lookup_insert_eq.
    intros [= <- <-]. exists y, x.
    rewrite lookup_insert_ne by done. by rewrite lookup_insert_eq.
  - intros self g r o o'.
    unfold ParamOperation.backward, bind, getattr, setattr, assert_same_shape, ret, raise.
    destruct (o !! "output") as [y|] eqn:Ey; [ | done ].
    destruct (decide (shape y = shape g)) as [Hs|]; [ | done ].
    destruct (hook_input_grad self g o) as [[ig|e] o1]; [ | done ].
    cbn. destruct (hook_param_grad self g _) as [[pg|e] o2]; [ | done ].
    cbn. rewrite lookup_insert_ne by done.
    destruct (o2 !! "input_grad") as [r'|] eqn:Er; [ | done ].
    intros [= <- <-]. exists y.
    rewrite lookup_insert_ne by done. by rewrite lookup_insert_eq.
Qed.

Lemma backward_returns_only_checked_witness :
  (exists y x,
     forwarded_Linear !! "output" = Some y /\ shape y = [2]
     /\ (<["input_grad" := full [2] 1%float]>
           (<["input" := full [2] 3%float]> forwarded_Linear)) !! "input" = Some x
     /\ shape x = [2])
  /\ (exists y,
        forwarded_WeightMultiply !! "output" = Some y /\ shape y = [2; 4]).
Proof.
  destruct backward_returns_only_checked as [HO HP]. split.
  - destruct (HO Linear.cls (full [2] 1%float) (full [2] 1%float)
                 (<["input" := full [2] 3%float]> forwarded_Linear)
                 (<["input_grad" := full [2] 1%float]>
                    (<["input" := full [2] 3%float]> forwarded_Linear)))
      as (y & x & Hy & Hsy & Hx & Hsx & _); [ reflexivity | ].
    exists y, x. split; [ | split; [ | split ] ];
      [ by rewrite lookup_insert_ne in Hy | exact Hsy | exact Hx | exact Hsx ].
  - destruct (HP WeightMultiply.cls (full [2; 4] 1%float) (full [2; 3] 4%float)
                 forwarded_WeightMultiply
                 (<["param_grad" := full [3; 4] 2%float]>
                    (<["input_grad" := full [2; 3] 4%float]> forwarded_WeightMultiply)))
      as (y & Hy & Hsy & _); [ reflexivity | ].
    exists y. split; [ exact Hy | exact Hsy ].
Defined.

(** ** The abstract classes *)

(** X6: the two abstract classes never return from [forward] or
    [backward].  [forward] caches its argument and raises
    [NotImplementedError]; [backward] raises and leaves the instance as it
    was, with [NotImplementedError] exactly when a cached [output] of the
    shape of [output_grad] lets it reach the hook. *)
Theorem abstract_classes_never_return :
  (forall (x : ndarray) (o : obj),
     Operation.forward Operation.cls x o
     = (Err NotImplementedError, <["input" := x]> o)
     /\ Operation.forward ParamOperation.cls x o
        = (Err NotImplementedError, <["input" := x]> o))
  /\ (forall (g : ndarray) (o : obj),
        exists e,
          Operation.backward Operation.cls g o = (Err e, o)
          /\ ParamOperation.backward ParamOperation.cls g o = (Err e, o)
          /\ (e = NotImplementedError <->
              exists y, o !! "output" = Some y /\ shape y = shape g)).
Proof.
  split.
  - intros x o. split; reflexivity.
  - intros g o.
    unfold Operation.backward, ParamOperation.backward, bind, getattr,
           assert_same_shape, ret, raise.
    destruct (o !! "output") as [y|] eqn:Ey.
    + destruct (decide (shape y = shape g)) as [Hs|Hs].
      * exists NotImplementedError. split; [ done | ]. split; [ done | ].
        split; [ by exists y | done ].
      * eexists. split; [ reflexivity | ]. split; [ reflexivity | ].
        split; [ done | ]. intros (y' & [= <-] & Hy'). done.
    + eexists. split; [ reflexivity | ]. split; [ reflexivity | ].
      split; [ done | ]. by intros (y' & Hy' & _).
Qed.

(** ** [WeightMultiply] *)

Lemma dot_2d_mismatch (a b : ndarray) (m n k p : nat) :
  shape a = [m; n] -> shape b = [k; p] -> n <> k -> np.dot a b = Err ValueError.
Proof.
  intros Ha Hb Hne. unfold np.dot. rewrite Ha, Hb. cbn.
  by apply Nat.eqb_neq in Hne as ->.
Qed.

(** X7: on a [WeightMultiply] whose [input_] has shape
    [[batch, in_features]] and whose [param] has shape
    [[in_features, out_features]], the output hook succeeds: it returns
    what [np.dot] makes of [input_] and [param], a well-formed array of
    shape [[batch, out_features]], and changes nothing. *)
Theorem WeightMultiply_output_is_product
    (o : obj) (a param : ndarray) (batch inf outf : nat) :
  o !! "input_" = Some a -> o !! "param" = Some param ->
  shape a = [batch; inf] -> shape param = [inf; outf] ->
  exists r, np.dot a param = Ok r
    /\ WeightMultiply._output o = (Ok r, o)
    /\ shape r = [batch; outf] /\ wf r.
Proof.
  intros Ha Hp Hsa Hsp.
  destruct (dot_2d_spec a param batch inf outf Hsa Hsp) as (r & Hd & Hr).
  exists r. split; [ exact Hd | ]. split; [ | exact Hr ].
  unfold WeightMultiply._output.
  do 2 (erewrite bind_ok by (by apply getattr_some)).
  unfold call. by rewrite Hd.
Qed.

Lemma WeightMultiply_output_is_product_witness :
  exists r, WeightMultiply._output patched_WeightMultiply
            = (Ok r, patched_WeightMultiply)
    /\ shape r = [2; 4].
Proof.
  destruct (WeightMultiply_output_is_product patched_WeightMultiply
              (full [2; 3] 1%float) (full [3; 4] 1%float) 2 3 4)
    as (r & _ & Hr & Hs & _); try reflexivity.
  exists r. split; assumption.
Defined.

(** X8: the hooks of [WeightMultiply] raise [ValueError] on operands that
    do not fit, and change nothing: [_input_grad] when [param] is not
    two-dimensional (the transposition has no axes (1, 0)) or when the
    second dimension of [output_grad] is not the second dimension of
    [param]; [_output] when the second dimension of [input_] is not the
    first dimension of [param]. *)
Theorem WeightMultiply_hooks_reject_misfits :
  (forall (o : obj) (param g : ndarray),
     o !! "param" = Some param -> length (shape param) <> 2 ->
     WeightMultiply._input_grad g o = (Err ValueError, o))
  /\ (forall (o : obj) (param g : ndarray) (batch inf outf k : nat),
        o !! "param" = Some param ->
        shape param = [inf; outf] -> shape g = [batch; k] -> k <> outf ->
        WeightMultiply._input_grad g o = (Err ValueError, o))
  /\ (forall (o : obj) (a param : ndarray) (batch inf outf k : nat),
        o !! "input_" = Some a -> o !! "param" = Some param ->
        shape a = [batch; k] -> shape param = [inf; outf] -> k <> inf ->
        WeightMultiply._output o = (Err ValueError, o)).
Proof.
  split; [ | split ].
  - intros o param g Ho Hlen. unfold WeightMultiply._input_grad.
    erewrite bind_ok by (by apply getattr_some).
    apply bind_err. unfold call, np.transpose_1_0.
    destruct (shape param) as [ | m [ | n [ | ? ? ] ] ]; cbn in Hlen; done.
  - intros o param g batch inf outf k Ho Hp Hg Hne. unfold WeightMultiply._input_grad.
    erewrite bind_ok by (by apply getattr_some).
    destruct (transpose_1_0_spec param inf outf Hp) as (pT & HT & HsT & _).
    erewrite bind_ok by (unfold call; by rewrite HT).
    unfold call. by rewrite (dot_2d_mismatch g pT batch k outf inf).
  - intros o a param batch inf outf k Ha Hp Hsa Hsp Hne. unfold WeightMultiply._output.
    do 2 (erewrite bind_ok by (by apply getattr_some)).
    unfold call. by rewrite (dot_2d_mismatch a param batch k inf outf).
Qed.

Lemma WeightMultiply_hooks_reject_misfits_witness :
  WeightMultiply._input_grad (full [2; 4] 1%float) {["param" := full [4] 1%float]}
  = (Err ValueError, {["param" := full [4] 1%float]})
  /\ WeightMultiply._input_grad (full [2; 5] 1%float) patched_WeightMultiply
     = (Err ValueError, patched_WeightMultiply)
  /\ WeightMultiply._output
       (<["input_" := full [2; 5] 1%float]> patched_WeightMultiply)
     = (Err ValueError, <["input_" := full [2; 5] 1%float]> patched_WeightMultiply).
Proof.
  destruct WeightMultiply_hooks_reject_misfits as (H1 & H2 & H3).
  split; [ | split ].
  - apply (H1 _ (full [4] 1%float)); [ reflexivity | cbn; lia ].
  - apply (H2 _ (full [3; 4] 1%float) _ 2 3 4 5); [ reflexivity .. | lia ].
  - apply (H3 _ (full [2; 5] 1%float) (full [3; 4] 1%float) 2 3 4 5);
      [ reflexivity .. | lia ].
Defined.

(** ** [BiasAdd] *)

Lemma broadcast_dim_1_l (d : nat) : np.broadcast_dim 1 d = Some d.
Proof. unfold np.broadcast_dim. destruct (1 =? d) eqn:E; [ | done ].
       apply Nat.eqb_eq in E. by subst. Qed.

Lemma broadcast_dim_1_r (d : nat) : np.broadcast_dim d 1 = Some d.
Proof. unfold np.broadcast_dim. by destruct (d =? 1). Qed.

Lemma broadcast_shapes_row_l (b f : nat) : np.broadcast_shapes [1; f] [b; f] = Some [b; f].
Proof.
  unfold np.broadcast_shapes, reverse. cbn.
  unfold np.broadcast_dim at 1. by rewrite Nat.eqb_refl, broadcast_dim_1_l.
Qed.

Lemma broadcast_shapes_row_r (b f : nat) : np.broadcast_shapes [b; f] [1; f] = Some [b; f].
Proof.
  unfold np.broadcast_shapes, reverse. cbn.
  unfold np.broadcast_dim at 1. by rewrite Nat.eqb_refl, broadcast_dim_1_r.
Qed.

(** A single row is repeated down the first axis. *)
Lemma broadcast_to_row (p : ndarray) (b f : nat) :
  shape p = [1; f] ->
  np.broadcast_to p [b; f] = map (fun i => item p (i mod f)) (seq 0 (size_of [b; f])).
Proof.
  intros Hp. unfold np.broadcast_to. rewrite Hp. apply map_ext. intros i.
  unfold reverse. cbn. f_equal.
  destruct (f =? 1) eqn:E; [ | lia ].
  apply Nat.eqb_eq in E. subst f. rewrite Nat.mod_1_r. lia.
Qed.

Lemma mod_row (i j f : nat) : j < f -> (i * f + j) mod f = j.
Proof.
  intros Hj. rewrite Nat.add_comm, Nat.Div0.mod_add. by apply Nat.mod_small.
Qed.

Lemma item_ones_like (a : ndarray) (k : nat) :
  k < size_of (shape a) -> item (np.ones_like a) k = 1%float.
Proof.
  intros Hk. unfold item, np.ones_like. cbn [data].
  rewrite nth_lookup, lookup_replicate_2; done.
Qed.

Lemma size_of_2 (b f : nat) : size_of [b; f] = b * f.
Proof. unfold size_of. cbn. lia. Qed.

Lemma index_in_block (i j b f : nat) : i < b -> j < f -> i * f + j < b * f.
Proof. intros Hi Hj. nia. Qed.

(** X9: on a [BiasAdd] whose [input_] is a well-formed array of shape
    [[batch, features]] and whose [param] is a row of shape
    [[1, features]], the output hook adds the row to every row of [input_]:
    the result has the shape of [input_] and entry [i, j] is
    [input_[i, j] + param[0, j]]. *)
Theorem BiasAdd_output_adds_row (o : obj) (a param : ndarray) (b f : nat) :
  o !! "input_" = Some a -> o !! "param" = Some param ->
  shape a = [b; f] -> wf a -> shape param = [1; f] ->
  exists r, BiasAdd._output o = (Ok r, o)
    /\ shape r = [b; f] /\ wf r
    /\ forall i j, i < b -> j < f ->
         item2 f r i j = PrimFloat.add (item2 f a i j) (item2 f param 0 j).
Proof.
  intros Ha Hp Hsa Hwa Hsp.
  assert (Hlen : length (data a) = b * f) by (rewrite Hwa, Hsa; apply size_of_2).
  eexists. split; [ | split; [ | split ] ].
  - unfold BiasAdd._output.
    do 2 (erewrite bind_ok by (by apply getattr_some)).
    unfold call, np.add, np.ufunc2.
    rewrite Hsa, Hsp, broadcast_shapes_row_r.
    replace (np.broadcast_to a [b; f]) with (data a)
      by (rewrite <- Hsa; symmetry; by apply broadcast_to_same).
    rewrite broadcast_to_row by done. reflexivity.
  - reflexivity.
  - unfold wf. cbn [data shape].
    rewrite length_zip_with, length_map, length_seq, Hlen, size_of_2. lia.
  - intros i j Hi Hj. unfold item2, item. cbn [data].
    pose proof (index_in_block i j b f Hi Hj) as Hij.
    rewrite (nth_zip_with _ _ _ _ 0%float 0%float) by
      (rewrite ?length_map, ?length_seq, ?size_of_2, ?Hlen; lia).
    rewrite nth_map_seq by (rewrite size_of_2; lia).
    unfold item. by rewrite mod_row.
Qed.

Lemma BiasAdd_output_adds_row_witness :
  exists r,
    BiasAdd._output (<["param" := full [1; 2] 0.5%float]>
                       {["input_" := full [3; 2] 1%float]})
    = (Ok r, <["param" := full [1; 2] 0.5%float]> {["input_" := full [3; 2] 1%float]})
    /\ shape r = [3; 2]
    /\ item2 2 r 2 1 = 1.5%float.
Proof.
  destruct (BiasAdd_output_adds_row
              (<["param" := full [1; 2] 0.5%float]> {["input_" := full [3; 2] 1%float]})
              (full [3; 2] 1%float) (full [1; 2] 0.5%float) 3 2)
    as (r & Hr & Hs & _ & Hi); try reflexivity.
  exists r. split; [ exact Hr | ]. split; [ exact Hs | ].
  rewrite Hi by lia. reflexivity.
Defined.

(** X10: on a [BiasAdd] whose [input_] has the shape of a well-formed
    [output_grad], the input gradient has that shape and its elements are
    those of [output_grad], each multiplied by 1.0; the values of [input_]
    play no part. *)
Theorem BiasAdd_input_grad_passes_through (o : obj) (a g : ndarray) :
  o !! "input_" = Some a -> shape a = shape g -> wf g ->
  BiasAdd._input_grad g o
  = (Ok {| shape := shape g; data := map (PrimFloat.mul 1) (data g) |}, o).
Proof.
  intros Ha Hs Hg. unfold BiasAdd._input_grad.
  erewrite bind_ok by (by apply getattr_some).
  unfold call, np.multiply.
  rewrite ufunc2_same_shape;
    [ | done | unfold wf, np.ones_like; cbn; by rewrite length_replicate | done ].
  cbn [shape data np.ones_like]. rewrite Hs, <- Hg.
  by rewrite zip_with_replicate_l.
Qed.

Lemma BiasAdd_input_grad_passes_through_witness :
  BiasAdd._input_grad (full [2; 2] 3%float) {["input_" := full [2; 2] 9%float]}
  = (Ok {| shape := [2; 2]; data := map (PrimFloat.mul 1) [3; 3; 3; 3]%float |},
     {["input_" := full [2; 2] 9%float]}).
Proof.
  apply (BiasAdd_input_grad_passes_through _ (full [2; 2] 9%float) (full [2; 2] 3%float));
    reflexivity.
Defined.

(** The row of ones, repeated down the first axis, multiplies every
    element of [g] by 1.0. *)
Lemma ones_row_times (param g : ndarray) (b f : nat) :
  shape param = [1; f] -> shape g = [b; f] -> wf g ->
  np.multiply (np.ones_like param) g
  = Ok {| shape := [b; f]; data := map (PrimFloat.mul 1) (data g) |}.
Proof.
  intros Hsp Hsg Hwg.
  assert (Hlen : length (data g) = b * f) by (rewrite Hwg, Hsg; apply size_of_2).
  unfold np.multiply, np.ufunc2. cbn [shape np.ones_like].
  rewrite Hsp, Hsg, broadcast_shapes_row_l. do 2 f_equal.
  replace (np.broadcast_to g [b; f]) with (data g)
    by (rewrite <- Hsg; symmetry; by apply broadcast_to_same).
  rewrite (broadcast_to_row (np.ones_like param)) by done.
  rewrite <- zip_with_replicate_l, Hlen, size_of_2. f_equal.
  rewrite <- (map_const_seq 1%float (b * f) 0).
  apply map_ext_in. intros i Hi%in_seq.
  assert (Hf : f <> 0) by (intros ->; lia).
  apply item_ones_like. rewrite Hsp, size_of_2.
  pose proof (Nat.mod_upper_bound i f Hf). lia.
Qed.

(** X11: on a [BiasAdd] whose [param] has shape [[1, features]] (its
    values play no part), the parameter gradient of a well-formed
    [output_grad] of shape [[batch, features]] is a well-formed row of the
    shape of [param]: what [np.sum] over the first axis makes of
    [output_grad] multiplied element by element by 1.0, with the first axis
    put back by the reshape. *)
Theorem BiasAdd_param_grad_sums_rows (o : obj) (param g : ndarray) (b f : nat) :
  o !! "param" = Some param -> shape param = [1; f] ->
  shape g = [b; f] -> wf g ->
  exists s r,
    np.sum_axis0 {| shape := [b; f]; data := map (PrimFloat.mul 1) (data g) |} = Ok s
    /\ BiasAdd._param_grad g o = (Ok r, o)
    /\ shape r = shape param /\ data r = data s /\ wf r.
Proof.
  intros Hp Hsp Hsg Hwg.
  assert (Hsz : (size_of [1; f] =? size_of [f]) = true)
    by (apply Nat.eqb_eq; unfold size_of; cbn; lia).
  eexists _, _. split; [ reflexivity | ]. split; [ | split; [ | split ] ].
  - unfold BiasAdd._param_grad.
    erewrite bind_ok by (by apply getattr_some).
    unfold bind, call. rewrite (ones_row_times param g b f) by done.
    unfold np.sum_axis0. cbn [shape]. unfold np.reshape. cbn [shape].
    rewrite Hsz. reflexivity.
  - by rewrite Hsp.
  - reflexivity.
  - unfold wf. cbn [data shape]. rewrite length_map, length_seq.
    unfold size_of. cbn. lia.
Qed.

Lemma BiasAdd_param_grad_sums_rows_witness :
  exists r,
    BiasAdd._param_grad (full [3; 2] 2%float) {["param" := full [1; 2] 0.5%float]}
    = (Ok r, {["param" := full [1; 2] 0.5%float]})
    /\ shape r = [1; 2].
Proof.
  destruct (BiasAdd_param_grad_sums_rows {["param" := full [1; 2] 0.5%float]}
              (full [1; 2] 0.5%float) (full [3; 2] 2%float) 3 2)
    as (s & r & _ & Hr & Hs & _); try reflexivity.
  exists r. split; [ exact Hr | exact Hs ].
Defined.

(** X12: [BiasAdd(B)] never returns an instance, whatever [B]: a
    zero-dimensional [B] raises [IndexError] at [B.shape[0]], a leading
    dimension other than 1 raises the [AssertionError] of the constructor's
    check, and a leading dimension of 1 reaches the misspelt call of
    [ParamOperation.__init__].  In no case is an attribute assigned. *)
Theorem BiasAdd_never_constructed (B : ndarray) (o : obj) :
  BiasAdd.__init__ B o
  = (Err (match shape B with
          | [] => IndexError
          | d :: _ => if decide (d = 1)
                      then AttributeError "_ParamOperation__init_"
                      else AssertionError None
          end), o)
  /\ exists e, construct (BiasAdd.__init__ B) = Err e.
Proof.
  assert (Hinit : forall o', BiasAdd.__init__ B o'
    = (Err (match shape B with
            | [] => IndexError
            | d :: _ => if decide (d = 1)
                        then AttributeError "_ParamOperation__init_"
                        else AssertionError None
            end), o')).
  { intros o'. unfold BiasAdd.__init__.
    destruct (shape B) as [ | d rest ]; [ done | ].
    destruct (decide (d = 1)); [ apply ParamOperation_init_raises | done ]. }
  split; [ apply Hinit | ].
  unfold construct. rewrite Hinit. by eexists.
Qed.

(** ** The regression script *)

Lemma lib_scalar_l (f : float -> float -> float) (c : float) (b : ndarray) :
  exists r, regression.lib (np.ufunc2 f (scalar c) b) = regression.Done r.
Proof.
  destruct (ufunc2_scalar_l_ok f c b) as (r & -> & _). by exists r.
Qed.

Lemma script_sigmoid_value (x : ndarray) :
  regression.sigmoid x = regression.Fail (regression.Raised TypeError).
Proof.
  unfold regression.sigmoid, np.multiply.
  destruct (lib_scalar_l PrimFloat.mul (-1.0)%float x) as (neg & ->).
  reflexivity.
Qed.

(** X13: the script's [sigmoid] raises [TypeError] for every array: the
    product [-1.0 * x] is computed, and then the module [np] is called as
    if it were [np.exp]. *)
Theorem script_sigmoid_raises (x : ndarray) :
  regression.sigmoid x = regression.Fail (regression.Raised TypeError).
Proof. apply script_sigmoid_value. Qed.

(** X14: [forward_loss] never returns a loss, whatever the data, the
    targets and the weights: every path ends in an exception. *)
Theorem forward_loss_never_returns `{LossKernels} (X y : ndarray)
    (weights : gmap string ndarray) :
  exists e, regression.forward_loss X y weights = regression.Fail e.
Proof.
  unfold regression.forward_loss, regression.getitem.
  destruct (weights !! "W1") as [W1|]; [ | by eexists ]. cbn [regression.and_then regression.lib].
  destruct (np.dot X W1) as [M1|e]; [ | by eexists ]. cbn [regression.and_then regression.lib].
  destruct (weights !! "B1") as [B1|]; [ | by eexists ]. cbn [regression.and_then regression.lib].
  destruct (np.add M1 B1) as [N1|e]; [ | by eexists ]. cbn [regression.and_then regression.lib].
  rewrite script_sigmoid_value. by eexists.
Qed.

(** X15: the exception [forward_loss] ends in is decided in source order.
    Without ["W1"] it is [KeyError] for that key, whatever [X]; with a
    [W1] whose first dimension is not the second of [X] it is the
    [ValueError] of [np.dot]; with a fitting [W1] and no ["B1"] it is
    [KeyError] for ["B1"]; and with [X], [W1] and [B1] of shapes [[n, i]],
    [[i, h]] and [[1, h]] it is the [TypeError] of [sigmoid], whether or not
    the weights of the second layer are there. *)
Theorem forward_loss_error_order `{LossKernels} :
  (forall (X y : ndarray) (weights : gmap string ndarray),
     weights !! "W1" = None ->
     regression.forward_loss X y weights
     = regression.Fail (regression.KeyError "W1"))
  /\ (forall (X y W1 : ndarray) (weights : gmap string ndarray) (n k i h : nat),
        weights !! "W1" = Some W1 ->
        shape X = [n; k] -> shape W1 = [i; h] -> k <> i ->
        regression.forward_loss X y weights
        = regression.Fail (regression.Raised ValueError))
  /\ (forall (X y W1 : ndarray) (weights : gmap string ndarray) (n i h : nat),
        weights !! "W1" = Some W1 -> weights !! "B1" = None ->
        shape X = [n; i] -> shape W1 = [i; h] ->
        regression.forward_loss X y weights
        = regression.Fail (regression.KeyError "B1"))
  /\ (forall (X y W1 B1 : ndarray) (weights : gmap string ndarray) (n i h : nat),
        weights !! "W1" = Some W1 -> weights !! "B1" = Some B1 ->
        shape X = [n; i] -> shape W1 = [i; h] -> shape B1 = [1; h] ->
        regression.forward_loss X y weights
        = regression.Fail (regression.Raised TypeError)).
Proof.
  split; [ | split; [ | split ] ].
  - intros X y weights HW.
    unfold regression.forward_loss, regression.getitem. by rewrite HW.
  - intros X y W1 weights n k i h HW HX HW1 Hne.
    unfold regression.forward_loss, regression.getitem. rewrite HW.
    cbn [regression.and_then].
    by rewrite (dot_2d_mismatch X W1 n k i h).
  - intros X y W1 weights n i h HW HB HX HW1.
    destruct (dot_2d_spec X W1 n i h HX HW1) as (M1 & Hd & _).
    unfold regression.forward_loss, regression.getitem. rewrite HW.
    cbn [regression.and_then]. rewrite Hd.
    cbn [regression.and_then regression.lib]. by rewrite HB.
  - intros X y W1 B1 weights n i h HW HB HX HW1 HB1.
    destruct (dot_2d_spec X W1 n i h HX HW1) as (M1 & Hd & HM1 & _).
    unfold regression.forward_loss, regression.getitem. rewrite HW.
    cbn [regression.and_then]. rewrite Hd.
    cbn [regression.and_then regression.lib]. rewrite HB.
    cbn [regression.and_then]. unfold np.add, np.ufunc2.
    rewrite HM1, HB1, broadcast_shapes_row_r.
    cbn [regression.and_then regression.lib].
    by rewrite script_sigmoid_value.
Qed.

Lemma forward_loss_error_order_witness :
  @regression.forward_loss index_order_kernels (full [5; 3] 1%float)
     (full [5; 1] 0%float) ∅
  = regression.Fail (regression.KeyError "W1")
  /\ @regression.forward_loss index_order_kernels (full [5; 4] 1%float)
       (full [5; 1] 0%float) {["W1" := full [3; 2] 1%float]}
     = regression.Fail (regression.Raised ValueError)
  /\ @regression.forward_loss index_order_kernels (full [5; 3] 1%float)
       (full [5; 1] 0%float) {["W1" := full [3; 2] 1%float]}
     = regression.Fail (regression.KeyError "B1")
  /\ @regression.forward_loss index_order_kernels (full [5; 3] 1%float)
       (full [5; 1] 0%float)
       (<["B1" := full [1; 2] 1%float]> {["W1" := full [3; 2] 1%float]})
     = regression.Fail (regression.Raised TypeError).
Proof.
  destruct (@forward_loss_error_order index_order_kernels) as (H1 & H2 & H3 & H4).
  split; [ | split; [ | split ] ].
  - apply H1. reflexivity.
  - apply (H2 _ _ (full [3; 2] 1%float) _ 5 4 3 2); [ reflexivity .. | lia ].
  - apply (H3 _ _ (full [3; 2] 1%float) _ 5 3 2); reflexivity.
  - apply (H4 _ _ (full [3; 2] 1%float) (full [1; 2] 1%float) _ 5 3 2); reflexivity.
Defined.

(** ** Instances used only through the library *)

(** X16: an instance of a concrete class that is only ever used through
    [forward] and [backward] holds at most one attribute, the last argument
    of [forward]; on it [backward] always raises [AttributeError] for
    [output], before any shape is compared, and changes nothing. *)
Theorem reachable_instances `{LibM} (c : concrete) (o : obj) (g : ndarray) :
  reachable c o ->
  (o = ∅ \/ exists x, o = <["input" := x]> ∅)
  /\ backward_of c g o = (Err (AttributeError "output"), o).
Proof.
  intros Hr. split.
  - induction Hr as [ | o x Hr IH | o g' Hr IH ].
    + by left.
    + right. exists x.
      rewrite (forward_without_input_ c x o (reachable_input__absent c o Hr)).
      cbn. destruct IH as [-> | [x' ->]]; [ done | apply insert_insert_eq ].
    + by rewrite (backward_without_output c g' o (reachable_output_absent c o Hr)).
  - apply backward_without_output. by apply (reachable_output_absent c).
Qed.

Lemma reachable_instances_witness :
  @backward_of series_libm LinearOp (full [2] 1%float)
    (@forward_of series_libm LinearOp (full [2] 3%float) ∅).2
  = (Err (AttributeError "output"),
     (@forward_of series_libm LinearOp (full [2] 3%float) ∅).2).
Proof.
  apply (@reachable_instances series_libm LinearOp).
  apply reach_forward, reach_new.
Defined.
